(** * Employee-curator: the cleaning pipeline and the sample extract

    A shallow embedding of [scripts/clean_and_write.py] (Stage A) and
    [scripts/write_sample.py] (Stage B).

    The scripts are written against pandas.  A DataFrame is modelled as
    an ordered list of column names together with an ordered list of
    rows, a row being a finite map from column names to cells; a Series
    is the list of the cells of one column.  Every statement of the
    scripts is one step in the option monad, [None] standing for the
    exception on which the script stops: the [KeyError] pandas raises
    when a column that is read does not exist, the [TypeError] of a
    comparison between a datetime64 column and a date, and the
    [OutOfBoundsDatetime] or [OverflowError] of a time stamp or a time
    difference that does not fit 64 bits of nanoseconds.

    Strings are sequences of 8-bit characters, and [str.title],
    [str.lower] and [str.strip] are modelled on ASCII text ([is_ascii]
    below): what Python does with other characters is not modelled, and
    what is proved of these three functions is proved of ASCII text.
    The two parsers pandas supplies ([pd.to_datetime] and
    [pd.to_numeric], both called with [errors="coerce"]) are parameters
    of the development. *)

From Stdlib Require Import ZArith QArith Qabs Lqa Ascii String List Lia.
From stdpp Require Import base option list gmap strings fin_maps.

#[local] Open Scope string_scope.
#[local] Open Scope Z_scope.

(** ** Python strings *)

Module PyStr.

Definition code (c : ascii) : N := N_of_ascii c.

(** ASCII text: every character below 128.  On such text the functions
    below are those of Python; other text is outside what they model. *)
Definition is_ascii_char (c : ascii) : bool := (code c <? 128)%N.

Fixpoint is_ascii (s : string) : bool :=
  match s with
  | EmptyString => true
  | String c s' => is_ascii_char c && is_ascii s'
  end.

Definition is_upper (c : ascii) : bool := ((65 <=? code c) && (code c <=? 90))%N.
Definition is_lower (c : ascii) : bool := ((97 <=? code c) && (code c <=? 122))%N.
Definition is_cased (c : ascii) : bool := is_upper c || is_lower c.

(** [str.isspace] on the ASCII range: TAB, LF, VT, FF, CR, the four
    separators FS, GS, RS, US, and the space. *)
Definition is_space (c : ascii) : bool :=
  ((9 <=? code c) && (code c <=? 13) || (28 <=? code c) && (code c <=? 32))%N.

Definition to_lower (c : ascii) : ascii :=
  if is_upper c then ascii_of_N (code c + 32) else c.
Definition to_upper (c : ascii) : ascii :=
  if is_lower c then ascii_of_N (code c - 32) else c.

(** [str.lower], on ASCII text *)
Fixpoint lower (s : string) : string :=
  match s with
  | EmptyString => EmptyString
  | String c s' => String (to_lower c) (lower s')
  end.

(** [str.title], on ASCII text: a cased character is upper-cased when
    the character before it is not cased, and lower-cased otherwise. *)
Fixpoint title_from (previous_is_cased : bool) (s : string) : string :=
  match s with
  | EmptyString => EmptyString
  | String c s' =>
      String (if previous_is_cased then to_lower c else to_upper c)
             (title_from (is_cased c) s')
  end.
Definition title (s : string) : string := title_from false s.

Fixpoint lstrip (s : string) : string :=
  match s with
  | EmptyString => EmptyString
  | String c s' => if is_space c then lstrip s' else s
  end.

Fixpoint rstrip (s : string) : string :=
  match s with
  | EmptyString => EmptyString
  | String c s' =>
      match rstrip s' with
      | EmptyString => if is_space c then EmptyString else String c EmptyString
      | t => String c t
      end
  end.

(** [str.strip] with no argument, on ASCII text *)
Definition strip (s : string) : string := rstrip (lstrip s).

(** [re.sub(r"[\$,]", "", s)]: every dollar sign and comma removed *)
Fixpoint remove_currency (s : string) : string :=
  match s with
  | EmptyString => EmptyString
  | String c s' =>
      if (Ascii.eqb c "$" || Ascii.eqb c ",")%bool then remove_currency s'
      else String c (remove_currency s')
  end.

Definition newline : ascii := ascii_of_N 10.

(** The longest prefix without a line feed, and what follows it. *)
Fixpoint span_line (s : string) : string * string :=
  match s with
  | EmptyString => (EmptyString, EmptyString)
  | String c s' =>
      if Ascii.eqb c newline then (EmptyString, s)
      else let '(body, rest) := span_line s' in (String c body, rest)
  end.

(** [.+$] matched at the start of [s]: the dot takes no line feed, and
    [$] holds at the end of the string or before a final line feed. *)
Definition match_rest (s : string) : option string :=
  let '(body, rest) := span_line s in
  match body with
  | EmptyString => None
  | _ =>
      if (String.eqb rest EmptyString || String.eqb rest (String newline EmptyString))%bool
      then Some body else None
  end.

(** [re.search(r"@(.+)$", s)], the captured group: the leftmost [@] at
    which the rest of the pattern matches. *)
Fixpoint search_domain (s : string) : option string :=
  match s with
  | EmptyString => None
  | String c s' =>
      if Ascii.eqb c "@" then
        match match_rest s' with
        | Some d => Some d
        | None => search_domain s'
        end
      else search_domain s'
  end.

End PyStr.

(** ** Calendar dates ([datetime.date]) *)

Record date := mkdate { year : Z; month : Z; day : Z }.

(** Python's ordering of tuples of two integers *)
Definition pair_lt (a b : Z * Z) : bool :=
  (a.1 <? b.1) || ((a.1 =? b.1) && (a.2 <? b.2)).

(** [date.__le__]: year, then month, then day *)
Definition date_le (a b : date) : bool :=
  (year a <? year b)
  || ((year a =? year b)
      && ((month a <? month b) || ((month a =? month b) && (day a <=? day b)))).

(** The day count of a date, as [datetime] computes it: the days before
    the year, the days before the month, the day of the month. *)
Definition is_leap (y : Z) : bool :=
  (y mod 4 =? 0) && (negb (y mod 100 =? 0) || (y mod 400 =? 0)).

Definition days_before_year (y : Z) : Z :=
  let p := y - 1 in p * 365 + p / 4 - p / 100 + p / 400.

Definition days_before_month (y m : Z) : Z :=
  nth (Z.to_nat m) [-1; 0; 31; 59; 90; 120; 151; 181; 212; 243; 273; 304; 334] 0
  + (if (2 <? m) && is_leap y then 1 else 0).

(** [date.toordinal]: days since 0001-01-01, that day being 1 *)
Definition toordinal (d : date) : Z :=
  days_before_year (year d) + days_before_month (year d) (month d) + day d.

(** The length of a month, and the dates the calendar has *)
Definition days_in_month (y m : Z) : Z :=
  if (m =? 2) && is_leap y then 29
  else nth (Z.to_nat m) [-1; 31; 28; 31; 30; 31; 30; 31; 31; 30; 31; 30; 31] 0.

Definition valid_date (d : date) : Prop :=
  1 <= month d <= 12 ∧ 1 <= day d <= days_in_month (year d) (month d).

(** ** Cells, series and frames *)

(** A float64 that is not NaN, its finite values taken as the rationals
    they are.  NaN, [None] and [NaT] are all what [pd.isna] accepts and
    are the one cell [Missing] below. *)
Inductive float64 :=
| NegInf
| Fin (q : Q)
| PosInf.

Definition Qltb (a b : Q) : bool := negb (Qle_bool b a).

(** [x < y] on floats *)
Definition flt (x y : float64) : bool :=
  match x, y with
  | NegInf, NegInf => false
  | NegInf, _ => true
  | Fin a, Fin b => Qltb a b
  | Fin _, PosInf => true
  | Fin _, NegInf => false
  | PosInf, _ => false
  end.

(** What a frame holds at one row and column: nothing, a string, a
    float, an integer (the ages) or a date. *)
Inductive cell :=
| Missing
| Str (s : string)
| Num (x : float64)
| Int (z : Z)
| Day (d : date).

#[global] Instance cell_inhabited : Inhabited cell := populate Missing.

#[global] Instance date_eq_dec : EqDecision date.
Proof. solve_decision. Defined.
#[global] Instance Q_eq_dec : EqDecision Q.
Proof. solve_decision. Defined.
#[global] Instance float64_eq_dec : EqDecision float64.
Proof. solve_decision. Defined.
#[global] Instance cell_eq_dec : EqDecision cell.
Proof. solve_decision. Defined.

(** [pd.isna] *)
Definition isna (c : cell) : bool :=
  match c with Missing => true | _ => false end.

(** [Series.fillna(v)] on one cell *)
Definition fillna (v : cell) (c : cell) : cell :=
  if isna c then v else c.

(** A [.str] method on one cell: anything that is not a string gives NaN. *)
Definition str_method (f : string → string) (c : cell) : cell :=
  match c with Str s => Str (f s) | _ => Missing end.

(** [.str.extract(pat, expand=False)] with one group, on one cell *)
Definition str_extract (f : string → option string) (c : cell) : cell :=
  match c with
  | Str s => match f s with Some g => Str g | None => Missing end
  | _ => Missing
  end.

(** [+] between two cells of a string column: NaN propagates. *)
Definition str_add (a b : cell) : cell :=
  match a, b with
  | Str x, Str y => Str (x +:+ y)
  | _, _ => Missing
  end.

(** [astype(str)] on a cell of a column read with [dtype=str]: such a
    cell is a string or NaN, no other kind of cell comes here, and
    [str(float("nan"))] is ["nan"]. *)
Definition astype_str (c : cell) : cell :=
  match c with
  | Str s => Str s
  | _ => Str "nan"
  end.

Definition as_date (c : cell) : option date :=
  match c with Day d => Some d | _ => None end.
Definition as_float (c : cell) : option float64 :=
  match c with Num x => Some x | _ => None end.

Definition of_text (o : option string) : cell :=
  match o with Some s => Str s | None => Missing end.
Definition of_date (o : option date) : cell :=
  match o with Some d => Day d | None => Missing end.
Definition of_float (o : option float64) : cell :=
  match o with Some x => Num x | None => Missing end.
Definition of_int (o : option Z) : cell :=
  match o with Some z => Int z | None => Missing end.

Abbreviation row := (gmap string cell).

Record frame := Frame { columns : list string; rows : list row }.

(** [df[c]]: the series of column [c], or a KeyError *)
Definition getitem (c : string) (df : frame) : option (list cell) :=
  if decide (c ∈ columns df) then Some ((λ r : row, r !!! c) <$> rows df)
  else None.

(** [df[c] = s]: an existing column is overwritten in place, a new one
    is appended at the end of the column list. *)
Definition setitem (c : string) (s : list cell) (df : frame) : frame :=
  {| columns := if decide (c ∈ columns df) then columns df else columns df ++ [c];
     rows := zip_with (λ (r : row) v, <[c := v]> r) (rows df) s |}.

(** [df[c] = v] for a scalar [v] *)
Definition setitem_scalar (c : string) (v : cell) (df : frame) : frame :=
  setitem c ((λ _, v) <$> rows df) df.

(** [df[mask]]: the rows at which the boolean series is true *)
Fixpoint mask_rows (rs : list row) (mask : list bool) : list row :=
  match rs, mask with
  | r :: rs', b :: mask' => if b then r :: mask_rows rs' mask' else mask_rows rs' mask'
  | _, _ => []
  end.

Definition getitem_mask (mask : list bool) (df : frame) : frame :=
  {| columns := columns df; rows := mask_rows (rows df) mask |}.

(** [df[cols]] for a list of names, and [df.reindex(columns=cols)], on
    one row: the cells of the listed columns, a column the frame does
    not have giving NaN. *)
Definition project (have cols : list string) (r : row) : row :=
  list_to_map ((λ c, (c, if decide (c ∈ have) then r !!! c else Missing)) <$> cols).

(** [df.reindex(columns=cols)] *)
Definition reindex (cols : list string) (df : frame) : frame :=
  {| columns := cols; rows := project (columns df) cols <$> rows df |}.

(** [df[cols]]: a KeyError unless every name is a column *)
Definition getitem_list (cols : list string) (df : frame) : option frame :=
  if decide (Forall (λ c, c ∈ columns df) cols)
  then Some {| columns := cols; rows := project (columns df) cols <$> rows df |}
  else None.

(** [df.head(n)] *)
Definition head (n : nat) (df : frame) : frame :=
  {| columns := columns df; rows := take n (rows df) |}.

(** [df[dst] = f(df[src])] for an element-wise [f] *)
Definition assign (dst src : string) (f : cell → cell) (df : frame) : option frame :=
  s ← getitem src df; Some (setitem dst (f <$> s) df).

(** [~Series.duplicated(keep="first")]: true at the first row of each
    key.  NaN keys count as equal to one another. *)
Fixpoint first_seen (seen : list cell) (keys : list cell) : list bool :=
  match keys with
  | [] => []
  | k :: keys' =>
      if decide (k ∈ seen) then false :: first_seen seen keys'
      else true :: first_seen (k :: seen) keys'
  end.

(** [df.drop_duplicates(subset=[c], keep="first")] *)
Definition drop_duplicates (c : string) (df : frame) : option frame :=
  k ← getitem c df; Some (getitem_mask (first_seen [] k) df).

(** ** Row-level views of the frame operations *)

(** The cell of column [c] in a row *)
Definition key_of (c : string) (r : row) : cell := r !!! c.

(** The rows [drop_duplicates] keeps when the keys in [seen] have
    already been met. *)
Definition dedup_from (c : string) (seen : list cell) (rs : list row) : list row :=
  mask_rows rs (first_seen seen (key_of c <$> rs)).

(** The column list after [df[c] = ...] *)
Definition add_col (c : string) (cs : list string) : list string :=
  if decide (c ∈ cs) then cs else cs ++ [c].

(** [df[dst] = f(df[src])] on one row *)
Definition set_cell (dst src : string) (f : cell → cell) (r : row) : row :=
  <[dst := f (r !!! src)]> r.

(** ** The raw table *)

(** What [pd.read_csv(path, dtype=str)] returns: the header, and per
    record the fields that are present, each one a string.  A field that
    is absent from a record is NaN in the frame. *)
Record table := Table { header : list string; body : list (gmap string string) }.

Definition read_csv (t : table) : frame :=
  {| columns := header t; rows := (λ rec : gmap string string, Str <$> rec) <$> body t |}.

(** ** Timestamps and time differences, in nanoseconds *)

Definition ns_per_day : Z := 86400 * 1000000000.

(** Time stamps and time differences are int64 counts of nanoseconds,
    the lowest int64 being kept for NaT. *)
Definition int64_max : Z := 2 ^ 63 - 1.

Definition fits_ns (x : Z) : bool := (- int64_max <=? x) && (x <=? int64_max).

(** [pd.to_datetime] of a date: midnight of that day, counted from
    1970-01-01 (ordinal 719163); an OutOfBoundsDatetime, here [None],
    when the count does not fit. *)
Definition to_timestamp (d : date) : option Z :=
  let ns := (toordinal d - 719163) * ns_per_day in
  if fits_ns ns then Some ns else None.

(** [a - b] for a time stamp [a] and a column of time stamps, at one
    cell [b] of the column: pandas computes [b - a] with a check for
    overflow, an OverflowError being [None] here, and negates. *)
Definition timestamp_sub (a b : Z) : option Z :=
  let x := b - a in
  if fits_ns x then Some (- x) else None.

(** [pd.Timedelta(days=365.25)] *)
Definition timedelta_year : Z := 36525 * ns_per_day / 100.

(** A time difference divided by a [Timedelta]: a float *)
Definition timedelta_div (x : Z) (b : Z) : cell :=
  Num (Fin (inject_Z x / inject_Z b)).

(** The dtype pandas gives a column.  [.dt.date] makes an object array
    of dates and NaT, and the Series built from it keeps the dtype
    object unless it has at least one cell and all its cells are NaT:
    it is then inferred to be datetime64 again. *)
Inductive dtype :=
| Object
| Datetime64.

Definition dt_date_dtype (s : list cell) : dtype :=
  match s with
  | [] => Object
  | _ => if forallb isna s then Datetime64 else Object
  end.

(** Rounding to the nearest integer, halves to the even one *)
Definition rint (q : Q) : Z :=
  let n := Qnum q in
  let d := Zpos (Qden q) in
  let k := n / d in
  match 2 * (n mod d) ?= d with
  | Lt => k
  | Gt => k + 1
  | Eq => if Z.even k then k else k + 1
  end.

(** [Series.round(1)] on one cell: scale by ten, round, scale back *)
Definition round1 (c : cell) : cell :=
  match c with
  | Num (Fin q) => Num (Fin (inject_Z (rint (q * 10)) / 10))
  | _ => c
  end.

(** ** Stage A: [clean_and_write.py] *)

Section StageA.

(** [pd.to_datetime(..., errors="coerce")] on one string of a series
    (the whole series is given too, a format may be inferred from it),
    keeping the calendar date only ([.dt.date]); [None] is NaT. *)
Variable parse_date : list cell → string → option date.

(** [pd.to_numeric(..., errors="coerce")] on one string; [None] is NaN. *)
Variable parse_number : string → option float64.

(** The run date, [datetime.utcnow().date()], and the run time stamp,
    [datetime.now().isoformat()]. *)
Variable today : date.
Variable ts : string.

Definition datetime_cell (s : list cell) (c : cell) : cell :=
  match c with
  | Str x => of_date (parse_date s x)
  | Day d => Day d
  | _ => Missing
  end.

Definition to_datetime (s : list cell) : list cell := datetime_cell s <$> s.

Definition to_numeric (c : cell) : cell :=
  match c with
  | Str x => of_float (parse_number x)
  | Num x => Num x
  | Int z => Int z
  | _ => Missing
  end.

(** [series <= today] on one cell of a column of dates: NaT compares false. *)
Definition le_today (c : cell) : bool :=
  match c with Day d => date_le d today | _ => false end.

Definition calc_age (birth : option date) : option Z :=
  match birth with
  | None => None
  | Some birth =>
      let delta := year today - year birth in
      let delta :=
        if pair_lt (month today, day today) (month birth, day birth)
        then delta - 1 else delta in
      Some delta
  end.

Definition salary_band (sal : option float64) : string :=
  match sal with
  | None => "Unknown"
  | Some sal =>
      if flt sal (Fin 50000) then "Junior"
      else if flt sal (Fin 80000) then "Mid"
      else "Senior"
  end.

Definition final_cols : list string :=
  ["employee_id"; "first_name"; "last_name"; "full_name"; "email"; "email_domain";
   "hire_date"; "job_title"; "department"; "salary"; "salary_band"; "manager_id";
   "address"; "city"; "state"; "zip_code"; "birth_date"; "age"; "tenure_years";
   "status"; "created_at"; "updated_at"].

(** Lines 14-19 *)
Definition fill_missing (df : frame) : option frame :=
  df ← assign "address" "address" (fillna (Str "")) df;
  df ← assign "city" "city" (fillna (Str "")) df;
  df ← assign "state" "state" (fillna (Str "")) df;
  df ← assign "zip_code" "zip_code" (fillna (Str "")) df;
  assign "status" "status" (fillna (Str "Active")) df.

(** Lines 21-26 *)
Definition normalize_names (df : frame) : option frame :=
  df ← assign "first_name" "first_name" (str_method PyStr.title) df;
  df ← assign "last_name" "last_name" (str_method PyStr.title) df;
  f ← getitem "first_name" df;
  l ← getitem "last_name" df;
  Some (setitem "full_name"
          (zip_with str_add ((λ x, str_add x (Str " ")) <$> (fillna (Str "") <$> f))
                            (fillna (Str "") <$> l)) df).

(** Lines 28-30 *)
Definition normalize_email (df : frame) : option frame :=
  df ← assign "email" "email"
         (str_method PyStr.lower ∘ str_method PyStr.strip ∘ astype_str) df;
  assign "email_domain" "email"
    (fillna (Str "") ∘ str_extract PyStr.search_domain) df.

(** Lines 32-34 *)
Definition clean_salary (df : frame) : option frame :=
  df ← assign "salary" "salary" (str_method PyStr.remove_currency ∘ astype_str) df;
  assign "salary" "salary" to_numeric df.

(** Lines 36-38.  The dtype of the hire dates is returned with the
    frame: it decides whether line 42 can compare them. *)
Definition parse_dates (df : frame) : option (dtype * frame) :=
  h ← getitem "hire_date" df;
  let hire := to_datetime h in
  let df := setitem "hire_date" hire df in
  b ← getitem "birth_date" df;
  Some (dt_date_dtype hire, setitem "birth_date" (to_datetime b) df).

(** [series <= today] for a column of the given dtype: cell by cell in
    an object column; a TypeError, here [None], for a datetime64 column,
    which does not compare with a [datetime.date]. *)
Definition series_le_today (dt : dtype) (s : list cell) : option (list bool) :=
  match dt with
  | Object => Some (le_today <$> s)
  | Datetime64 => None
  end.

(** Lines 40-42, [hire_dtype] being the dtype of the hire dates *)
Definition remove_future_hires (hire_dtype : dtype) (df : frame) : option frame :=
  h ← getitem "hire_date" df;
  le ← series_le_today hire_dtype h;
  Some (getitem_mask (zip_with orb (isna <$> h) le) df).

(** [(pd.to_datetime(today) - pd.to_datetime(hire)) / pd.Timedelta(days=365.25)]
    on one cell of the hire dates: NaT gives NaN; [None] is the
    exception of a time stamp or a difference that does not fit. *)
Definition tenure_ratio (hire : cell) : option cell :=
  now ← to_timestamp today;
  match as_date hire with
  | None => Some Missing
  | Some d =>
      t ← to_timestamp d;
      delta ← timestamp_sub now t;
      Some (timedelta_div delta timedelta_year)
  end.

(** Lines 44-57.  [pd.to_datetime(today)] is evaluated whether the
    frame has rows or not. *)
Definition add_age_tenure (df : frame) : option frame :=
  df ← assign "age" "birth_date" (of_int ∘ calc_age ∘ as_date) df;
  h ← getitem "hire_date" df;
  _ ← to_timestamp today;
  tenure ← mapM tenure_ratio h;
  let df := setitem "tenure_years" tenure df in
  assign "tenure_years" "tenure_years" round1 df.

(** Lines 59-74 *)
Definition add_band_stamps (df : frame) : option frame :=
  df ← assign "salary_band" "salary" (Str ∘ salary_band ∘ as_float) df;
  let df := setitem_scalar "created_at" (Str ts) df in
  Some (setitem_scalar "updated_at" (Str ts) df).

(** The whole script, from the frame read to the frame written. *)
Definition stage_a (t : table) : option frame :=
  df ← drop_duplicates "employee_id" (read_csv t);
  df ← fill_missing df;
  df ← normalize_names df;
  df ← normalize_email df;
  df ← clean_salary df;
  '(hire_dtype, df) ← parse_dates df;
  df ← remove_future_hires hire_dtype df;
  df ← add_age_tenure df;
  df ← add_band_stamps df;
  Some (reindex final_cols df).

(** *** The same steps, one row at a time *)

Definition fill_row : row → row :=
  set_cell "status" "status" (fillna (Str "Active"))
  ∘ set_cell "zip_code" "zip_code" (fillna (Str ""))
  ∘ set_cell "state" "state" (fillna (Str ""))
  ∘ set_cell "city" "city" (fillna (Str ""))
  ∘ set_cell "address" "address" (fillna (Str "")).

Definition full_name_of (r : row) : cell :=
  str_add (str_add (fillna (Str "") (r !!! "first_name")) (Str " "))
          (fillna (Str "") (r !!! "last_name")).

Definition names_row : row → row :=
  (λ r : row, <["full_name" := full_name_of r]> r)
  ∘ set_cell "last_name" "last_name" (str_method PyStr.title)
  ∘ set_cell "first_name" "first_name" (str_method PyStr.title).

Definition email_row : row → row :=
  set_cell "email_domain" "email" (fillna (Str "") ∘ str_extract PyStr.search_domain)
  ∘ set_cell "email" "email"
      (str_method PyStr.lower ∘ str_method PyStr.strip ∘ astype_str).

Definition salary_row : row → row :=
  set_cell "salary" "salary" to_numeric
  ∘ set_cell "salary" "salary" (str_method PyStr.remove_currency ∘ astype_str).

Definition hire_ok (r : row) : bool :=
  isna (r !!! "hire_date") || le_today (r !!! "hire_date").

(** The tenure before rounding, when nothing overflows: the days from
    the hire date to the run date, in nanoseconds, over a year. *)
Definition tenure_quotient (hire : cell) : cell :=
  match as_date hire with
  | None => Missing
  | Some d =>
      timedelta_div
        ((toordinal today - 719163) * ns_per_day - (toordinal d - 719163) * ns_per_day)
        timedelta_year
  end.

Definition derive_row : row → row :=
  set_cell "tenure_years" "tenure_years" round1
  ∘ set_cell "tenure_years" "hire_date" tenure_quotient
  ∘ set_cell "age" "birth_date" (of_int ∘ calc_age ∘ as_date).

Definition band_row : row → row :=
  (λ r : row, <["updated_at" := Str ts]> r)
  ∘ (λ r : row, <["created_at" := Str ts]> r)
  ∘ set_cell "salary_band" "salary" (Str ∘ salary_band ∘ as_float).

Definition finish_row (have : list string) : row → row :=
  project have final_cols ∘ band_row ∘ derive_row.

(** The columns the script reads before it has written them. *)
Definition required : list string :=
  ["employee_id"; "address"; "city"; "state"; "zip_code"; "status";
   "first_name"; "last_name"; "email"; "salary"; "hire_date"; "birth_date"].

(** The columns the script adds. *)
Definition derived : list string :=
  ["full_name"; "email_domain"; "age"; "tenure_years"; "salary_band";
   "created_at"; "updated_at"].

(** The columns the frame has when it is re-indexed. *)
Definition columns_at_end (hdr : list string) : list string :=
  foldl (λ cs c, add_col c cs) hdr derived.

(** The two date columns parsed, each series handed to the parser whole. *)
Definition dates_rows (rs : list row) : list row :=
  let hs := key_of "hire_date" <$> rs in
  let rs := set_cell "hire_date" "hire_date" (datetime_cell hs) <$> rs in
  let bs := key_of "birth_date" <$> rs in
  set_cell "birth_date" "birth_date" (datetime_cell bs) <$> rs.

(** The rows that reach the filter, and the rows the script writes,
    computed row by row from the table. *)
Definition parsed_rows (t : table) : list row :=
  dates_rows ((salary_row ∘ email_row ∘ names_row ∘ fill_row)
                <$> dedup_from "employee_id" [] (rows (read_csv t))).

Definition stage_a_rows (t : table) : list row :=
  finish_row (columns_at_end (header t))
    <$> filter (λ r, hire_ok r = true) (parsed_rows t).

(** One record of the table taken through the script: up to the filter,
    and up to the frame written.  [hs] and [bs] are the series of raw
    hire dates and birth dates handed to the parser. *)
Definition parsed_row (hs bs : list cell) (rec : gmap string string) : row :=
  set_cell "birth_date" "birth_date" (datetime_cell bs)
    (set_cell "hire_date" "hire_date" (datetime_cell hs)
       ((salary_row ∘ email_row ∘ names_row ∘ fill_row) (Str <$> rec))).

Definition record_row (hs bs : list cell) (have : list string)
    (rec : gmap string string) : row :=
  finish_row have (parsed_row hs bs rec).

End StageA.

(** ** Stage B: [write_sample.py] *)

Definition cols : list string :=
  ["employee_id"; "full_name"; "email"; "salary"; "salary_band"; "age";
   "tenure_years"; "department"].

Definition stage_b (df : frame) : option frame :=
  head 10 <$> getitem_list cols df.

(** ** The columns of the data-model table of the specification *)

Definition spec_columns : list string :=
  ["employee_id"; "first_name"; "last_name"; "full_name"; "email"; "email_domain";
   "hire_date"; "birth_date"; "job_title"; "department"; "manager_id"; "salary";
   "salary_band"; "address"; "city"; "state"; "zip_code"; "age"; "tenure_years";
   "status"; "created_at"; "updated_at"].

(** ** The predicate of the row filter as the specification words it *)

(** "Keep a record iff hire_date is missing or hire_date ≤ run_date". *)
Definition not_future (today : date) (hire : cell) : Prop :=
  hire = Missing ∨ ∃ d, hire = Day d ∧ date_le d today = true.

(** ** The full name as the specification words it *)

Definition text_or_empty (c : cell) : string :=
  match c with Str s => s | _ => "" end.

(** "Trimmed-missing-safe concatenation of normalized first and last name
    with a single space separator", a missing name counting as empty. *)
Definition spec_full_name (first last : cell) : cell :=
  Str (PyStr.strip ((text_or_empty first +:+ " ") +:+ text_or_empty last)).

(** ** A small roster to run the scripts on *)

Module Sample.

Definition digit (c : ascii) : option Z :=
  let n := Z.of_N (N_of_ascii c) in
  if (48 <=? n) && (n <=? 57) then Some (n - 48) else None.

Fixpoint digits_from (acc : Z) (s : string) : option Z :=
  match s with
  | EmptyString => Some acc
  | String c s' => d ← digit c; digits_from (acc * 10 + d) s'
  end.

Definition number (s : string) : option Z :=
  match s with EmptyString => None | _ => digits_from 0 s end.

(** A parser of dates written YYYY-MM-DD, and one of unsigned integers. *)
Definition iso_date (_ : list cell) (s : string) : option date :=
  if (String.length s =? 10)%nat then
    y ← number (substring 0 4 s);
    m ← number (substring 5 2 s);
    d ← number (substring 8 2 s);
    Some (mkdate y m d)
  else None.

Definition plain_number (s : string) : option float64 :=
  (λ z, Fin (inject_Z z)) <$> number s.

Definition hdr : list string :=
  ["employee_id"; "first_name"; "last_name"; "email"; "hire_date"; "birth_date";
   "job_title"; "department"; "manager_id"; "salary"; "address"; "city"; "state";
   "zip_code"; "status"].

Definition jane : gmap string string :=
  list_to_map
    [("employee_id", "E1"); ("first_name", "jANE"); ("last_name", "doe");
     ("email", " Jane.Doe@Example.COM "); ("hire_date", "2020-01-01");
     ("birth_date", "2000-03-15"); ("job_title", "Engineer");
     ("department", "R&D"); ("salary", "$45,000"); ("city", "Pune")].

(** Same identifier as [jane], another salary. *)
Definition jane_again : gmap string string :=
  <["salary" := "$90,000"]> jane.

(** No first name, no e-mail address, no salary, dates that do not parse. *)
Definition doe : gmap string string :=
  list_to_map
    [("employee_id", "E2"); ("last_name", "doe"); ("hire_date", "soon");
     ("status", "Leave")].

(** Hired after the run date. *)
Definition late : gmap string string :=
  list_to_map
    [("employee_id", "E3"); ("first_name", "al"); ("last_name", "b");
     ("email", "al@b.org"); ("hire_date", "2030-01-01"); ("salary", "80000")].

Definition roster : table := Table hdr [jane; jane_again; doe; late].

Definition run_date : date := mkdate 2024 3 14.
Definition run_ts : string := "2024-03-14T09:00:00".

Definition cleaned : option frame :=
  stage_a iso_date plain_number run_date run_ts roster.

(** The frame the run writes (the empty frame, had it failed). *)
Definition written : frame := default (Frame [] []) cleaned.

(** A cleaned file of fifteen records, as Stage B reads it. *)
Definition fifteen : frame :=
  Frame final_cols
    ((λ i : nat, {[ "employee_id" := Int (Z.of_nat i); "extra" := Str "x" ]} : row)
       <$> seq 0 15).

End Sample.

(** The salary bands in their order, 0 for a string that is no band *)
Definition band_rank (band : string) : nat :=
  if String.eqb band "Junior" then 1
  else if String.eqb band "Mid" then 2
  else if String.eqb band "Senior" then 3
  else 0.

(** The series of one raw column over some records of the table *)
Definition raw_series (c : string) (kept : list (gmap string string)) : list cell :=
  (λ rec : gmap string string, of_text (rec !! c)) <$> kept.

(** ** A roster with a repeated identifier *)

Module Repeat.

(** Hired after the run date. *)
Definition early : gmap string string :=
  list_to_map
    [("employee_id", "E7"); ("first_name", "ann"); ("last_name", "lee");
     ("hire_date", "2031-05-01"); ("salary", "$70,000.50")].

(** The same identifier again, hired before the run date. *)
Definition again : gmap string string :=
  <["hire_date" := "2019-05-01"]> early.

Definition other : gmap string string :=
  list_to_map
    [("employee_id", "E8"); ("first_name", "bo"); ("email", "  Bo@X.io  ");
     ("hire_date", "2024-03-14"); ("birth_date", "2024-03-15")].

(** A header with the twelve columns the script reads and no more. *)
Definition roster : table := Table required [early; again; other].

Definition written : frame :=
  default (Frame [] [])
    (stage_a Sample.iso_date Sample.plain_number Sample.run_date Sample.run_ts roster).

End Repeat.

(** ** Rosters on which the script stops *)

Module Stops.

(** No hire date. *)
Definition undated : gmap string string :=
  list_to_map [("employee_id", "E9"); ("first_name", "cy"); ("salary", "60000")].

(** A hire date that does not parse. *)
Definition unclear : gmap string string :=
  list_to_map [("employee_id", "E10"); ("hire_date", "last spring")].

(** Every parsed hire date is missing. *)
Definition no_dates : table := Table required [undated; unclear].

(** Hired more than 292 years before the run date. *)
Definition veteran : gmap string string :=
  list_to_map [("employee_id", "E5"); ("hire_date", "1700-01-01")].

Definition long_ago : table := Table required [Repeat.other; veteran].

End Stops.

(** * Properties *)

(** ** Frames *)

Lemma getitem_Some c df s :
  getitem c df = Some s ↔ c ∈ columns df ∧ s = key_of c <$> rows df.
Proof.
  unfold getitem. case_decide; split.
  - intros [= <-]. done.
  - intros [_ ->]. done.
  - done.
  - intros [? _]. done.
Qed.

Lemma zip_with_fmap_same {A B C} (f : A → B → C) (g : A → B) (l : list A) :
  zip_with f l (g <$> l) = (λ x, f x (g x)) <$> l.
Proof. induction l as [|x l IH]; csimpl; [done | by rewrite IH]. Qed.

Lemma mask_rows_fmap (p : row → bool) (rs : list row) :
  mask_rows rs (p <$> rs) = filter (λ r, p r = true) rs.
Proof.
  induction rs as [|r rs IH]; [done |].
  csimpl. rewrite IH. destruct (p r) eqn:E.
  - by rewrite filter_cons_True.
  - rewrite filter_cons_False; [done | congruence].
Qed.

Lemma elem_of_add_col c c' cs : c' ∈ add_col c cs ↔ c' = c ∨ c' ∈ cs.
Proof.
  unfold add_col. case_decide.
  - split; [auto | intros [-> | ?]; done].
  - rewrite elem_of_app, list_elem_of_singleton. tauto.
Qed.

Lemma assign_Some dst src f df df' :
  assign dst src f df = Some df' ↔
  src ∈ columns df ∧
  df' = Frame (add_col dst (columns df)) (set_cell dst src f <$> rows df).
Proof.
  unfold assign. split.
  - intros (s & [Hin ->]%getitem_Some & [= <-])%bind_Some. split; [done |].
    unfold setitem, add_col. f_equal.
    by rewrite <- list_fmap_compose, zip_with_fmap_same.
  - intros [Hin ->]. apply bind_Some. exists (key_of src <$> rows df). split.
    + by apply getitem_Some.
    + unfold setitem, add_col. do 2 f_equal.
      by rewrite <- list_fmap_compose, zip_with_fmap_same.
Qed.

(** ** The deduplicator *)

Section Dedup.

Variable c : string.

Lemma dedup_from_nil seen : dedup_from c seen [] = [].
Proof. done. Qed.

Lemma dedup_from_cons seen r rs :
  dedup_from c seen (r :: rs) =
  if decide (key_of c r ∈ seen) then dedup_from c seen rs
  else r :: dedup_from c (key_of c r :: seen) rs.
Proof. unfold dedup_from. simpl. by case_decide. Qed.

Lemma dedup_from_sublist seen rs : sublist (dedup_from c seen rs) rs.
Proof.
  revert seen. induction rs as [|r rs IH]; intros seen.
  - constructor.
  - rewrite dedup_from_cons. case_decide.
    + by apply sublist_cons.
    + by apply sublist_skip.
Qed.

Lemma dedup_from_fresh seen rs r :
  r ∈ dedup_from c seen rs → key_of c r ∉ seen.
Proof.
  revert seen. induction rs as [|r' rs IH]; intros seen.
  - rewrite dedup_from_nil. by intros ?%elem_of_nil.
  - rewrite dedup_from_cons. case_decide.
    + apply IH.
    + intros [-> | Hr]%elem_of_cons; [done |].
      apply IH in Hr. by apply not_elem_of_cons in Hr as [_ ?].
Qed.

Lemma dedup_from_NoDup seen rs : NoDup (key_of c <$> dedup_from c seen rs).
Proof.
  revert seen. induction rs as [|r rs IH]; intros seen.
  - constructor.
  - rewrite dedup_from_cons. case_decide; [apply IH |].
    rewrite fmap_cons. constructor; [| apply IH].
    intros (r' & Hk & Hr')%list_elem_of_fmap.
    apply dedup_from_fresh in Hr'. apply Hr'. rewrite Hk. left.
Qed.

(** Every key that was not met before is still there. *)
Lemma dedup_from_keys seen rs k :
  k ∈ key_of c <$> dedup_from c seen rs ↔ k ∈ key_of c <$> rs ∧ k ∉ seen.
Proof.
  revert seen. induction rs as [|r rs IH]; intros seen.
  - rewrite dedup_from_nil. simpl. split; [by intros ?%elem_of_nil | by intros [?%elem_of_nil _]].
  - rewrite dedup_from_cons. case_decide as Hseen.
    + rewrite IH, fmap_cons, elem_of_cons. split; [tauto |].
      intros [[-> | ?] ?]; [done | tauto].
    + rewrite !fmap_cons, !elem_of_cons, IH, not_elem_of_cons.
      split; [intros [-> | (? & ? & ?)]; tauto |].
      intros [[-> | ?] ?]; [tauto |].
      destruct (decide (k = key_of c r)); tauto.
Qed.

(** A row that is kept stands at the first position of its key. *)
Lemma dedup_from_first seen rs r :
  r ∈ dedup_from c seen rs →
  ∃ i, rs !! i = Some r ∧
       ∀ j r', (j < i)%nat → rs !! j = Some r' → key_of c r' ≠ key_of c r.
Proof.
  revert seen. induction rs as [|r0 rs IH]; intros seen.
  - rewrite dedup_from_nil. by intros ?%elem_of_nil.
  - rewrite dedup_from_cons. case_decide as Hseen.
    + intros Hr. pose proof (dedup_from_fresh _ _ _ Hr) as Hfresh.
      destruct (IH _ Hr) as (i & Hi & Hfirst). exists (S i). split; [done |].
      intros [|j] r' Hj Hr'; simpl in Hr'.
      * injection Hr' as <-. congruence.
      * apply (Hfirst j); [lia | done].
    + intros [-> | Hr]%elem_of_cons.
      * exists 0%nat. split; [done | intros; lia].
      * pose proof (dedup_from_fresh _ _ _ Hr) as Hfresh.
        apply not_elem_of_cons in Hfresh as [Hne _].
        destruct (IH _ Hr) as (i & Hi & Hfirst). exists (S i). split; [done |].
        intros [|j] r' Hj Hr'; simpl in Hr'.
        -- injection Hr' as <-. congruence.
        -- apply (Hfirst j); [lia | done].
Qed.

(** Rows with pairwise different keys, none of them met before, all stay. *)
Lemma dedup_from_id seen rs :
  NoDup (key_of c <$> rs) → (∀ r, r ∈ rs → key_of c r ∉ seen) →
  dedup_from c seen rs = rs.
Proof.
  revert seen. induction rs as [|r rs IH]; intros seen Hnd Hfresh; [done |].
  rewrite dedup_from_cons. rewrite fmap_cons in Hnd.
  apply NoDup_cons in Hnd as [Hr Hnd].
  rewrite decide_False by (apply Hfresh; left).
  f_equal. apply IH; [done |].
  intros r' Hr'. apply not_elem_of_cons. split.
  - intros Heq. apply Hr. rewrite <- Heq. by apply list_elem_of_fmap_2.
  - apply Hfresh. by right.
Qed.

Lemma drop_duplicates_Some df out :
  drop_duplicates c df = Some out ↔
  c ∈ columns df ∧ out = Frame (columns df) (dedup_from c [] (rows df)).
Proof.
  unfold drop_duplicates. rewrite bind_Some. split.
  - intros (k & [Hc ->]%getitem_Some & [= <-]). done.
  - intros [Hc ->]. exists (key_of c <$> rows df). by rewrite getitem_Some.
Qed.

End Dedup.

(** Membership in a list of names that is written out *)
Ltac listed := apply (bool_decide_unpack _); vm_compute; exact I.

(** C2. For a frame that has the key column, the deduplicator returns a
    frame with the same columns in which every key occurs at most once;
    the rows kept are rows of the input in their input order; each of
    them stands at the first position its key has in the input, whatever
    its other cells are; and the keys of the output are keys of the
    input (indeed all of them). *)
Theorem drop_duplicates_first_occurrence (c : string) (df : frame) :
  c ∈ columns df →
  ∃ out,
    drop_duplicates c df = Some out ∧
    columns out = columns df ∧
    NoDup (key_of c <$> rows out) ∧
    sublist (rows out) (rows df) ∧
    (∀ r, r ∈ rows out →
       ∃ i, rows df !! i = Some r ∧
            ∀ j r', (j < i)%nat → rows df !! j = Some r' → key_of c r' ≠ key_of c r) ∧
    (∀ k, k ∈ key_of c <$> rows out ↔ k ∈ key_of c <$> rows df).
Proof.
  intros Hc. exists (Frame (columns df) (dedup_from c [] (rows df))).
  split; [by apply drop_duplicates_Some |]. simpl.
  split; [done |].
  split; [apply dedup_from_NoDup |].
  split; [apply dedup_from_sublist |].
  split; [apply dedup_from_first |].
  intros k. rewrite dedup_from_keys. split; [by intros [? _] |].
  intros ?. split; [done | apply not_elem_of_nil].
Qed.

Lemma drop_duplicates_first_occurrence_witness :
  ∃ out,
    drop_duplicates "employee_id" (read_csv Sample.roster) = Some out ∧
    NoDup (key_of "employee_id" <$> rows out) ∧
    sublist (rows out) (rows (read_csv Sample.roster)).
Proof.
  destruct (drop_duplicates_first_occurrence "employee_id" (read_csv Sample.roster))
    as (out & Hrun & _ & Hnd & Hsub & _); [listed |].
  exists out. split; [exact Hrun |]. split; [exact Hnd | exact Hsub].
Defined.

(** C9. The deduplicator is idempotent: run on its own result it returns
    that result (and it fails the second time exactly when it failed the
    first time, the key column being absent). *)
Theorem drop_duplicates_idempotent (c : string) (df : frame) :
  drop_duplicates c df ≫= drop_duplicates c = drop_duplicates c df.
Proof.
  destruct (drop_duplicates c df) as [out|] eqn:Hrun; [| done]. simpl.
  apply drop_duplicates_Some in Hrun as [Hc ->].
  apply drop_duplicates_Some. simpl. split; [done |]. f_equal.
  symmetry. apply dedup_from_id.
  - apply dedup_from_NoDup.
  - intros r _. apply not_elem_of_nil.
Qed.

(** ** Stage B *)

Lemma getitem_list_Some cs df out :
  getitem_list cs df = Some out ↔
  Forall (λ c, c ∈ columns df) cs ∧
  out = Frame cs (project (columns df) cs <$> rows df).
Proof.
  unfold getitem_list. case_decide; split.
  - by intros [= <-].
  - by intros [_ ->].
  - done.
  - by intros [? _].
Qed.

(** ** Stage A, step by step *)

Lemma add_col_elem c cs : c ∈ cs → add_col c cs = cs.
Proof. intros ?. unfold add_col. by rewrite decide_True. Qed.

Lemma assign_same_Some c f df df' :
  assign c c f df = Some df' ↔
  c ∈ columns df ∧ df' = Frame (columns df) (set_cell c c f <$> rows df).
Proof.
  rewrite assign_Some. split; intros [Hc ->]; (split; [done |]);
    by rewrite add_col_elem.
Qed.

Lemma setitem_scalar_eq c v df :
  setitem_scalar c v df =
  Frame (add_col c (columns df)) ((λ r : row, <[c := v]> r) <$> rows df).
Proof.
  unfold setitem_scalar, setitem, add_col. f_equal.
  by rewrite zip_with_fmap_same.
Qed.

Lemma getitem_mask_fmap (p : row → bool) df :
  getitem_mask (p <$> rows df) df =
  Frame (columns df) (filter (λ r, p r = true) (rows df)).
Proof. unfold getitem_mask. by rewrite mask_rows_fmap. Qed.

(** One step of a script in the option monad, taken apart with the
    lemma [lem] that describes the step. *)
Ltac bind_step H lem :=
  let x := fresh "df" in
  let H1 := fresh "Hstep" in
  let H2 := fresh "Hrest" in
  let Hc := fresh "Hcol" in
  destruct (proj1 (bind_Some _ _ _) H) as (x & H1 & H2); clear H;
  apply lem in H1 as [Hc ->]; simpl in H2; rename H2 into H.

(** The converse: the step is run, its side condition being at hand. *)
Ltac run_step lem :=
  apply bind_Some; eexists; split;
  [apply lem; split; [done | reflexivity] | simpl].

(** Membership facts about column lists, brought to the header. *)
Ltac split_cols :=
  repeat match goal with
    | H : Forall _ (_ :: _) |- _ => apply Forall_cons in H as [? H]
    | H : Forall _ [] |- _ => clear H
    | H : _ ∈ add_col _ _ |- _ => apply elem_of_add_col in H as [? | H]; [done |]
    end.

Ltac solve_cols :=
  simpl; repeat (apply Forall_cons; split); try apply Forall_nil;
  rewrite ?elem_of_add_col; auto 10.

Ltac run_step_cols lem :=
  apply bind_Some; eexists; split;
  [apply lem; split; [solve_cols | reflexivity] | simpl].

Section StageAFacts.

Variable parse_date : list cell → string → option date.
Variable parse_number : string → option float64.
Variable today : date.
Variable ts : string.

Lemma fill_missing_Some df df' :
  fill_missing df = Some df' ↔
  Forall (λ c, c ∈ columns df) ["address"; "city"; "state"; "zip_code"; "status"] ∧
  df' = Frame (columns df) (fill_row <$> rows df).
Proof.
  unfold fill_missing. split.
  - intros H.
    repeat bind_step H assign_same_Some.
    apply assign_same_Some in H as [Hlast ->]. simpl in *.
    split; [by repeat constructor |].
    by rewrite <- !list_fmap_compose.
  - rewrite !Forall_cons. intros [(? & ? & ? & ? & ? & _) ->].
    repeat run_step assign_same_Some.
    apply assign_same_Some. split; [done |]. simpl.
    by rewrite <- !list_fmap_compose.
Qed.

Lemma full_name_series (rs : list row) :
  zip_with str_add
    ((λ x, str_add x (Str " ")) <$> (fillna (Str "") <$> (key_of "first_name" <$> rs)))
    (fillna (Str "") <$> (key_of "last_name" <$> rs))
  = full_name_of <$> rs.
Proof. induction rs as [|r rs IH]; csimpl; [done | by rewrite IH]. Qed.

Lemma normalize_names_Some df df' :
  normalize_names df = Some df' ↔
  Forall (λ c, c ∈ columns df) ["first_name"; "last_name"] ∧
  df' = Frame (add_col "full_name" (columns df)) (names_row <$> rows df).
Proof.
  unfold normalize_names. split.
  - intros H.
    repeat bind_step H assign_same_Some.
    do 2 bind_step H getitem_Some.
    injection H as <-. split; [by repeat constructor |].
    unfold setitem, add_col; simpl. f_equal.
    rewrite full_name_series, zip_with_fmap_same.
    by rewrite <- !list_fmap_compose.
  - rewrite !Forall_cons. intros [(? & ? & _) ->].
    repeat run_step assign_same_Some.
    do 2 run_step getitem_Some.
    simpl. unfold setitem, add_col; simpl. do 2 f_equal.
    rewrite full_name_series, zip_with_fmap_same.
    by rewrite <- !list_fmap_compose.
Qed.

Lemma normalize_email_Some df df' :
  normalize_email df = Some df' ↔
  "email" ∈ columns df ∧
  df' = Frame (add_col "email_domain" (columns df)) (email_row <$> rows df).
Proof.
  unfold normalize_email. split.
  - intros H. bind_step H assign_same_Some.
    apply assign_Some in H as [_ ->]. simpl.
    split; [done |]. by rewrite <- !list_fmap_compose.
  - intros [? ->]. run_step assign_same_Some.
    apply assign_Some. split; [done |]. simpl.
    by rewrite <- !list_fmap_compose.
Qed.

Lemma clean_salary_Some df df' :
  clean_salary parse_number df = Some df' ↔
  "salary" ∈ columns df ∧
  df' = Frame (columns df) (salary_row parse_number <$> rows df).
Proof.
  unfold clean_salary. split.
  - intros H. bind_step H assign_same_Some.
    apply assign_same_Some in H as [_ ->]. simpl.
    split; [done |]. by rewrite <- !list_fmap_compose.
  - intros [? ->]. run_step assign_same_Some.
    apply assign_same_Some. split; [done |]. simpl.
    by rewrite <- !list_fmap_compose.
Qed.

Lemma setitem_datetime c cs rs :
  c ∈ cs →
  setitem c (to_datetime parse_date (key_of c <$> rs)) (Frame cs rs) =
  Frame cs (set_cell c c (datetime_cell parse_date (key_of c <$> rs)) <$> rs).
Proof.
  intros Hc. unfold setitem, to_datetime. simpl. rewrite decide_True by done.
  f_equal. by rewrite <- list_fmap_compose, zip_with_fmap_same.
Qed.

Lemma hire_series_parsed (rs : list row) :
  key_of "hire_date" <$> dates_rows parse_date rs =
  to_datetime parse_date (key_of "hire_date" <$> rs).
Proof.
  unfold dates_rows, to_datetime. rewrite <- !list_fmap_compose.
  apply list_fmap_ext. intros i r _. unfold compose, key_of, set_cell.
  rewrite lookup_total_insert_ne by done. by rewrite lookup_total_insert_eq.
Qed.

Lemma parse_dates_Some df dt df' :
  parse_dates parse_date df = Some (dt, df') ↔
  Forall (λ c, c ∈ columns df) ["hire_date"; "birth_date"] ∧
  dt = dt_date_dtype (key_of "hire_date" <$> dates_rows parse_date (rows df)) ∧
  df' = Frame (columns df) (dates_rows parse_date (rows df)).
Proof.
  destruct df as [cs rs]. unfold parse_dates. simpl.
  rewrite hire_series_parsed. split.
  - intros H. bind_step H getitem_Some.
    rewrite setitem_datetime in H by done.
    bind_step H getitem_Some. injection H as <- <-.
    rewrite setitem_datetime by done.
    split; [by repeat constructor |]. done.
  - rewrite !Forall_cons. intros [(? & ? & _) [-> ->]].
    run_step getitem_Some. rewrite setitem_datetime by done.
    run_step getitem_Some. by rewrite setitem_datetime.
Qed.

Lemma hire_mask (rs : list row) :
  zip_with orb (isna <$> (key_of "hire_date" <$> rs))
               (le_today today <$> (key_of "hire_date" <$> rs))
  = hire_ok today <$> rs.
Proof. induction rs as [|r rs IH]; csimpl; [done | by rewrite IH]. Qed.

Lemma remove_future_hires_Some dt df df' :
  remove_future_hires today dt df = Some df' ↔
  ("hire_date" ∈ columns df ∧ dt = Object) ∧
  df' = Frame (columns df) (filter (λ r, hire_ok today r = true) (rows df)).
Proof.
  unfold remove_future_hires. split.
  - intros H. bind_step H getitem_Some.
    destruct dt; [| discriminate]. injection H as <-.
    split; [done |]. by rewrite hire_mask, getitem_mask_fmap.
  - intros [[? ->] ->]. run_step getitem_Some.
    by rewrite hire_mask, getitem_mask_fmap.
Qed.

(** A tenure that is computed is the quotient of the row-level view. *)
Lemma tenure_ratio_quotient c v :
  tenure_ratio today c = Some v → v = tenure_quotient today c.
Proof.
  unfold tenure_ratio, tenure_quotient, to_timestamp, timestamp_sub.
  destruct (fits_ns ((toordinal today - 719163) * ns_per_day)); [| done].
  simpl. destruct (as_date c) as [d|]; [| by intros [= <-]].
  destruct (fits_ns ((toordinal d - 719163) * ns_per_day)); [| done].
  simpl. destruct (fits_ns _); [| done].
  intros [= <-]. do 3 f_equal. lia.
Qed.

Lemma tenure_series (hs : list cell) (tenure : list cell) :
  mapM (tenure_ratio today) hs = Some tenure ↔
  Forall (λ c, is_Some (tenure_ratio today c)) hs ∧
  tenure = tenure_quotient today <$> hs.
Proof.
  rewrite mapM_Some. split.
  - induction 1 as [|c v hs tenure Hc _ [IH ->]]; [done |].
    split; [by constructor |]. csimpl. f_equal.
    by apply tenure_ratio_quotient.
  - intros [H ->]. induction H as [|c hs [v Hv] _ IH]; csimpl; constructor.
    + rewrite Hv. f_equal. by apply tenure_ratio_quotient.
    + done.
Qed.

Lemma setitem_fmap dst src (f : cell → cell) cs (rs : list row) :
  setitem dst (f <$> (key_of src <$> rs)) (Frame cs rs) =
  Frame (add_col dst cs) (set_cell dst src f <$> rs).
Proof.
  unfold setitem, add_col. simpl. f_equal.
  by rewrite <- list_fmap_compose, zip_with_fmap_same.
Qed.

Lemma hire_series_aged (f : cell → cell) (rs : list row) :
  key_of "hire_date" <$> (set_cell "age" "birth_date" f <$> rs) =
  key_of "hire_date" <$> rs.
Proof.
  rewrite <- list_fmap_compose. apply list_fmap_ext.
  intros i r _. unfold compose, key_of, set_cell.
  by rewrite lookup_total_insert_ne.
Qed.

Lemma add_age_tenure_Some df df' :
  add_age_tenure today df = Some df' ↔
  (Forall (λ c, c ∈ columns df) ["birth_date"; "hire_date"] ∧
   is_Some (to_timestamp today) ∧
   Forall (λ r : row, is_Some (tenure_ratio today (r !!! "hire_date"))) (rows df)) ∧
  df' = Frame (add_col "tenure_years" (add_col "age" (columns df)))
              (derive_row today <$> rows df).
Proof.
  assert (Hall : ∀ rs : list row,
             Forall (λ c, is_Some (tenure_ratio today c)) (key_of "hire_date" <$> rs) ↔
             Forall (λ r : row, is_Some (tenure_ratio today (r !!! "hire_date"))) rs).
  { intros rs. by rewrite Forall_fmap. }
  unfold add_age_tenure. split.
  - intros H. bind_step H assign_Some. bind_step H getitem_Some.
    destruct (proj1 (bind_Some _ _ _) H) as (now & Hnow & H1); clear H.
    destruct (proj1 (bind_Some _ _ _) H1) as (tenure & Hten & H); clear H1.
    apply tenure_series in Hten as [Hten ->].
    rewrite setitem_fmap in H. rewrite hire_series_aged in Hten.
    apply assign_same_Some in H as [_ ->]. simpl.
    apply elem_of_add_col in Hcol0 as [? | ?]; [done |].
    split; [split; [by repeat constructor | split; [by eexists | by apply Hall]] |].
    by rewrite <- !list_fmap_compose.
  - rewrite !Forall_cons. intros [((? & ? & _) & [now Hnow] & Hten) ->].
    run_step assign_Some.
    apply bind_Some; eexists; split;
      [apply getitem_Some; split; [apply elem_of_add_col; by right | reflexivity] |].
    simpl. rewrite Hnow. simpl.
    apply bind_Some. eexists. split.
    { apply tenure_series. split; [| reflexivity].
      rewrite hire_series_aged. by apply Hall. }
    rewrite setitem_fmap.
    apply assign_same_Some. simpl. split; [apply elem_of_add_col; by left |].
    by rewrite <- !list_fmap_compose.
Qed.

Lemma add_band_stamps_Some df df' :
  add_band_stamps ts df = Some df' ↔
  "salary" ∈ columns df ∧
  df' = Frame (add_col "updated_at" (add_col "created_at"
                 (add_col "salary_band" (columns df))))
              (band_row ts <$> rows df).
Proof.
  unfold add_band_stamps. split.
  - intros H. bind_step H assign_Some. injection H as <-.
    rewrite !setitem_scalar_eq. simpl.
    split; [done |]. by rewrite <- !list_fmap_compose.
  - intros [? ->]. run_step assign_Some.
    rewrite !setitem_scalar_eq. simpl. by rewrite <- !list_fmap_compose.
Qed.

Lemma reindex_eq cs df :
  reindex cs df = Frame cs (project (columns df) cs <$> rows df).
Proof. done. Qed.

(** Stage A runs to its end exactly when the table has the columns the
    script reads, the parsed hire dates keep the dtype object, and the
    time stamps and the time differences of the tenure fit; it then
    writes the rows of the row-level view. *)
Lemma stage_a_runs t out :
  stage_a parse_date parse_number today ts t = Some out ↔
  (Forall (λ c, c ∈ header t) required ∧
   dt_date_dtype (key_of "hire_date" <$> parsed_rows parse_date parse_number t) = Object ∧
   is_Some (to_timestamp today) ∧
   Forall (λ r : row, is_Some (tenure_ratio today (r !!! "hire_date")))
     (filter (λ r, hire_ok today r = true) (parsed_rows parse_date parse_number t))) ∧
  out = Frame final_cols (stage_a_rows parse_date parse_number today ts t).
Proof.
  assert (Hrows : ∀ rs : list row,
    salary_row parse_number <$> (email_row <$> (names_row <$> (fill_row <$> rs)))
    = (salary_row parse_number ∘ email_row ∘ names_row ∘ fill_row) <$> rs).
  { intros rs. by rewrite <- !list_fmap_compose. }
  unfold stage_a. split.
  - intros H.
    bind_step H drop_duplicates_Some.
    bind_step H fill_missing_Some.
    bind_step H normalize_names_Some.
    bind_step H normalize_email_Some.
    bind_step H clean_salary_Some.
    destruct (proj1 (bind_Some _ _ _) H) as ([dt df] & Hstep & Hrest); clear H.
    apply parse_dates_Some in Hstep as (Hcol4 & -> & ->).
    simpl in Hrest. rename Hrest into H.
    bind_step H remove_future_hires_Some.
    bind_step H add_age_tenure_Some.
    bind_step H add_band_stamps_Some.
    injection H as <-.
    destruct Hcol5 as [Hcol5 Hdt]. destruct Hcol6 as (Hcol6 & Hnow & Hten).
    cbn [rows columns] in *. rewrite Hrows in Hdt, Hten.
    split; [split; [| by split] |].
    + clear Hdt Hten Hnow. simpl in *. split_cols. by repeat constructor.
    + rewrite reindex_eq. cbn [rows columns]. f_equal.
      unfold stage_a_rows, parsed_rows, finish_row. rewrite Hrows.
      by rewrite <- !list_fmap_compose.
  - unfold required. intros [(Hreq & Hdt & Hnow & Hten) ->]. split_cols.
    run_step_cols drop_duplicates_Some.
    run_step_cols fill_missing_Some.
    run_step_cols normalize_names_Some.
    run_step_cols normalize_email_Some.
    run_step_cols clean_salary_Some.
    apply bind_Some; eexists (_, _); split;
      [apply parse_dates_Some; split; [solve_cols | split; reflexivity] |].
    cbn [rows columns]. rewrite Hrows.
    apply bind_Some; eexists; split;
      [apply remove_future_hires_Some; split; [split; [solve_cols | exact Hdt] | reflexivity] |].
    cbn [rows columns].
    apply bind_Some; eexists; split;
      [apply add_age_tenure_Some; split;
         [split; [solve_cols | split; [exact Hnow | exact Hten]] | reflexivity] |].
    cbn [rows columns].
    run_step_cols add_band_stamps_Some.
    rewrite reindex_eq. simpl. f_equal.
    unfold stage_a_rows, parsed_rows, finish_row.
    by rewrite <- !list_fmap_compose.
Qed.

Lemma stage_a_Some t out :
  stage_a parse_date parse_number today ts t = Some out →
  Forall (λ c, c ∈ header t) required ∧
  out = Frame final_cols (stage_a_rows parse_date parse_number today ts t).
Proof. intros [(? & _) ->]%stage_a_runs. done. Qed.

End StageAFacts.

(** ** From records to rows *)

Lemma sublist_fmap_inv {A B} (f : A → B) (l : list A) (k : list B) :
  sublist k (f <$> l) → ∃ l0, sublist l0 l ∧ k = f <$> l0.
Proof.
  revert k. induction l as [|x l IH]; intros k Hk; csimpl in *.
  - apply sublist_nil_r in Hk as ->. by exists [].
  - apply sublist_cons_r in Hk as [Hk | (k' & -> & Hk)].
    + destruct (IH _ Hk) as (l0 & ? & ->). exists l0. split; [by apply sublist_cons | done].
    + destruct (IH _ Hk) as (l0 & ? & ->). exists (x :: l0).
      split; [by apply sublist_skip | done].
Qed.

Lemma project_lookup have cs (r : row) c :
  project have cs r !! c =
  if decide (c ∈ cs) then Some (if decide (c ∈ have) then r !!! c else Missing)
  else None.
Proof.
  unfold project. induction cs as [|c0 cs IH].
  - rewrite fmap_nil, list_to_map_nil, lookup_empty.
    destruct (decide (c ∈ [])) as [Hin | _]; [by apply elem_of_nil in Hin | done].
  - rewrite fmap_cons, list_to_map_cons.
    destruct (decide (c0 = c)) as [-> | Hne].
    + rewrite lookup_insert_eq.
      destruct (decide (c ∈ c :: cs)) as [_ | Hin]; [done |].
      exfalso. apply Hin. left.
    + rewrite lookup_insert_ne by done. rewrite IH.
      destruct (decide (c ∈ cs)) as [Hin | Hin];
        destruct (decide (c ∈ c0 :: cs)) as [Hin' | Hin']; try done.
      * exfalso. apply Hin'. by right.
      * apply elem_of_cons in Hin' as [? | ?]; [congruence | done].
Qed.

Lemma project_lookup_total have cs (r : row) c :
  c ∈ cs → c ∈ have → project have cs r !!! c = r !!! c.
Proof.
  intros Hc Hh. rewrite (lookup_total_alt (project have cs r)), project_lookup.
  by rewrite !decide_True.
Qed.

Lemma elem_of_columns_at_end hdr c :
  c ∈ columns_at_end hdr ↔
  c ∈ hdr ∨ c ∈ derived.
Proof.
  unfold columns_at_end, derived. simpl. rewrite !elem_of_add_col, !elem_of_cons, elem_of_nil.
  tauto.
Qed.

Lemma raw_lookup (rec : gmap string string) c :
  ((Str <$> rec) : row) !!! c = match rec !! c with Some s => Str s | None => Missing end.
Proof. rewrite lookup_total_alt, lookup_fmap. by destruct (rec !! c). Qed.

Lemma set_cell_eq dst src f (r : row) : set_cell dst src f r !!! dst = f (r !!! src).
Proof. apply lookup_total_insert_eq. Qed.

Lemma set_cell_ne dst src f (r : row) c :
  dst ≠ c → set_cell dst src f r !!! c = r !!! c.
Proof. apply lookup_total_insert_ne. Qed.

(** Cells of a row built by a chain of assignments *)
Ltac cells :=
  unfold compose; cbv beta;
  repeat first
    [ rewrite set_cell_eq
    | rewrite set_cell_ne by done
    | rewrite lookup_total_insert_eq
    | rewrite lookup_total_insert_ne by done ].

Section Rows.

Variable parse_date : list cell → string → option date.
Variable parse_number : string → option float64.
Variable today : date.
Variable ts : string.

Lemma stage_a_rows_records t :
  ∃ hs bs recs,
    sublist recs (body t) ∧
    Forall (λ rec, hire_ok today (parsed_row parse_date parse_number hs bs rec) = true) recs ∧
    stage_a_rows parse_date parse_number today ts t
    = record_row parse_date parse_number today ts hs bs (columns_at_end (header t)) <$> recs.
Proof.
  unfold stage_a_rows, parsed_rows, dates_rows.
  set (rs := _ <$> dedup_from _ _ _).
  set (hs := key_of "hire_date" <$> rs).
  set (bs := key_of "birth_date" <$> _).
  exists hs, bs.
  destruct (sublist_fmap_inv (λ rec : gmap string string, (Str <$> rec : row)) (body t)
              (dedup_from "employee_id" [] (rows (read_csv t)))) as (l0 & Hl0 & Hdd).
  { apply dedup_from_sublist. }
  subst rs. rewrite Hdd. rewrite <- !list_fmap_compose.
  match goal with |- context [filter ?P (?g <$> l0)] =>
    destruct (sublist_fmap_inv g l0 (filter P (g <$> l0))) as (recs & Hrecs & Heq);
      [apply sublist_filter |];
    assert (Forall P (filter P (g <$> l0))) as HP
  end.
  { apply Forall_forall. by intros r [? _]%list_elem_of_filter. }
  exists recs. split; [by etrans |].
  rewrite Heq in HP |- *. split.
  - apply Forall_fmap in HP. exact HP.
  - rewrite <- list_fmap_compose. unfold record_row, parsed_row, compose.
    reflexivity.
Qed.

Lemma columns_at_end_written hdr :
  Forall (λ c, c ∈ hdr) required →
  Forall (λ c, c ∈ columns_at_end hdr) (required ++ derived).
Proof.
  intros Hreq. apply Forall_app. split.
  - eapply Forall_impl; [exact Hreq |]. intros c Hc.
    apply elem_of_columns_at_end. by left.
  - apply Forall_forall. intros c Hc. apply elem_of_columns_at_end. by right.
Qed.

(** *** The cells of a row that is written *)

Section Cells.

Variable have : list string.
Hypothesis Hhave : Forall (λ c, c ∈ have) (required ++ derived).

Lemma in_have (c : string) : c ∈ (required ++ derived)%list → c ∈ have.
Proof. revert c. by apply Forall_forall. Qed.

Ltac out_cell :=
  unfold finish_row, compose;
  rewrite project_lookup_total by (first [listed | apply in_have; listed]);
  unfold band_row, derive_row; cells.

Lemma finish_hire_date p :
  finish_row today ts have p !!! "hire_date" = p !!! "hire_date".
Proof. by out_cell. Qed.

Lemma finish_birth_date p :
  finish_row today ts have p !!! "birth_date" = p !!! "birth_date".
Proof. by out_cell. Qed.

Lemma finish_age p :
  finish_row today ts have p !!! "age"
  = of_int (calc_age today (as_date (p !!! "birth_date"))).
Proof. by out_cell. Qed.

Lemma finish_tenure_years p :
  finish_row today ts have p !!! "tenure_years"
  = round1 (tenure_quotient today (p !!! "hire_date")).
Proof. by out_cell. Qed.

Lemma finish_salary p :
  finish_row today ts have p !!! "salary" = p !!! "salary".
Proof. by out_cell. Qed.

Lemma finish_salary_band p :
  finish_row today ts have p !!! "salary_band"
  = Str (salary_band (as_float (p !!! "salary"))).
Proof. by out_cell. Qed.

Lemma finish_first_name p :
  finish_row today ts have p !!! "first_name" = p !!! "first_name".
Proof. by out_cell. Qed.

Lemma finish_last_name p :
  finish_row today ts have p !!! "last_name" = p !!! "last_name".
Proof. by out_cell. Qed.

Lemma finish_full_name p :
  finish_row today ts have p !!! "full_name" = p !!! "full_name".
Proof. by out_cell. Qed.

Lemma finish_email p :
  finish_row today ts have p !!! "email" = p !!! "email".
Proof. by out_cell. Qed.

Lemma finish_email_domain p :
  finish_row today ts have p !!! "email_domain" = p !!! "email_domain".
Proof. by out_cell. Qed.

Lemma finish_employee_id p :
  finish_row today ts have p !!! "employee_id" = p !!! "employee_id".
Proof. by out_cell. Qed.

End Cells.

(** *** The cells of a record when it reaches the filter *)

Section Parsed.

Variables hs bs : list cell.
Variable rec : gmap string string.

Let p := parsed_row parse_date parse_number hs bs rec.

(** The raw field of a record, as the cell [read_csv] makes of it *)
Let raw (c : string) : cell :=
  match rec !! c with Some s => Str s | None => Missing end.

Ltac parsed_cell :=
  subst p raw; unfold parsed_row, salary_row, email_row, names_row, fill_row;
  cells; unfold full_name_of; cells; rewrite ?raw_lookup.

Lemma parsed_employee_id : p !!! "employee_id" = raw "employee_id".
Proof. by parsed_cell. Qed.

Lemma parsed_first_name : p !!! "first_name" = str_method PyStr.title (raw "first_name").
Proof. by parsed_cell. Qed.

Lemma parsed_last_name : p !!! "last_name" = str_method PyStr.title (raw "last_name").
Proof. by parsed_cell. Qed.

Lemma parsed_full_name :
  p !!! "full_name"
  = str_add (str_add (fillna (Str "") (p !!! "first_name")) (Str " "))
            (fillna (Str "") (p !!! "last_name")).
Proof. by parsed_cell. Qed.

Lemma parsed_email :
  p !!! "email"
  = str_method PyStr.lower (str_method PyStr.strip (astype_str (raw "email"))).
Proof. by parsed_cell. Qed.

Lemma parsed_email_domain :
  p !!! "email_domain"
  = fillna (Str "") (str_extract PyStr.search_domain (p !!! "email")).
Proof. by parsed_cell. Qed.

Lemma parsed_salary :
  p !!! "salary"
  = to_numeric parse_number
      (str_method PyStr.remove_currency (astype_str (raw "salary"))).
Proof. by parsed_cell. Qed.

Lemma parsed_hire_date :
  p !!! "hire_date" = datetime_cell parse_date hs (raw "hire_date").
Proof. by parsed_cell. Qed.

Lemma parsed_birth_date :
  p !!! "birth_date" = datetime_cell parse_date bs (raw "birth_date").
Proof. by parsed_cell. Qed.

End Parsed.

End Rows.

(** ** The calendar *)

Lemma div_step (c y : Z) :
  0 < c → y / c = (y - 1) / c + (if y mod c =? 0 then 1 else 0).
Proof.
  intros Hc.
  pose proof (Z.div_mod y c ltac:(lia)) as H1.
  pose proof (Z.div_mod (y - 1) c ltac:(lia)) as H2.
  pose proof (Z.mod_pos_bound y c Hc) as B1.
  pose proof (Z.mod_pos_bound (y - 1) c Hc) as B2.
  destruct (Z.eqb_spec (y mod c) 0) as [E | E]; nia.
Qed.

Lemma mod_of_multiple (a b y : Z) :
  0 < a → 0 < b → y mod (a * b) = 0 → y mod a = 0.
Proof.
  intros Ha Hb H. apply Z.mod_divide in H; [| lia]. apply Z.mod_divide; [lia |].
  destruct H as [k ->]. exists (k * b). ring.
Qed.

Lemma days_before_year_succ y :
  days_before_year (y + 1) = days_before_year y + 365 + (if is_leap y then 1 else 0).
Proof.
  unfold days_before_year, is_leap. cbv zeta.
  replace (y + 1 - 1) with y by lia.
  rewrite (div_step 4 y), (div_step 100 y), (div_step 400 y) by lia.
  pose proof (mod_of_multiple 4 25 y ltac:(lia) ltac:(lia)) as H4.
  pose proof (mod_of_multiple 100 4 y ltac:(lia) ltac:(lia)) as H100.
  change (4 * 25) with 100 in H4. change (100 * 4) with 400 in H100.
  destruct (Z.eqb_spec (y mod 4) 0), (Z.eqb_spec (y mod 100) 0),
    (Z.eqb_spec (y mod 400) 0); simpl; try lia; exfalso; auto.
Qed.

Lemma days_before_year_mono y y' :
  y <= y' → days_before_year y <= days_before_year y'.
Proof.
  intros Hle. revert y' Hle.
  apply (Z.le_ind (fun z => days_before_year y <= days_before_year z)).
  - intros ? ? ->. reflexivity.
  - lia.
  - intros m _ IH. rewrite <- Z.add_1_r, days_before_year_succ.
    destruct (is_leap m); lia.
Qed.

Lemma month_cases m :
  1 <= m <= 12 →
  m = 1 ∨ m = 2 ∨ m = 3 ∨ m = 4 ∨ m = 5 ∨ m = 6 ∨
  m = 7 ∨ m = 8 ∨ m = 9 ∨ m = 10 ∨ m = 11 ∨ m = 12.
Proof. lia. Qed.

(** Case analysis on a month, and the two tables looked up. *)
Ltac by_month Hm :=
  destruct (month_cases _ Hm)
    as [->|[->|[->|[->|[->|[->|[->|[->|[->|[->|[->| ->]]]]]]]]]]].

Ltac month_tables :=
  cbv [Z.to_nat Pos.to_nat Pos.iter_op Nat.add nth Z.ltb Z.eqb Z.compare
       Pos.compare Pos.compare_cont andb Pos.eqb] in *.

Lemma day_of_year_bounds y m d :
  1 <= m <= 12 → 1 <= d <= days_in_month y m →
  1 <= days_before_month y m + d <= 365 + (if is_leap y then 1 else 0).
Proof.
  intros Hm Hd. unfold days_before_month, days_in_month in *.
  destruct (is_leap y); by_month Hm; month_tables; lia.
Qed.

Lemma day_of_year_mono y m d m' d' :
  1 <= m <= 12 → 1 <= d <= days_in_month y m →
  1 <= m' <= 12 → 1 <= d' <= days_in_month y m' →
  m < m' → days_before_month y m + d < days_before_month y m' + d'.
Proof.
  intros Hm Hd Hm' Hd' Hlt. unfold days_before_month, days_in_month in *.
  destruct (is_leap y); by_month Hm; by_month Hm'; month_tables; lia.
Qed.

Lemma toordinal_lt_year a b :
  valid_date a → valid_date b → year a < year b → toordinal a < toordinal b.
Proof.
  intros [Hma Hda] [Hmb Hdb] Hy. unfold toordinal.
  pose proof (day_of_year_bounds _ _ _ Hma Hda).
  pose proof (day_of_year_bounds _ _ _ Hmb Hdb).
  pose proof (days_before_year_succ (year a)).
  pose proof (days_before_year_mono (year a + 1) (year b) ltac:(lia)). lia.
Qed.

(** On dates of the calendar, the order of [date_le] is the order of the
    day counts. *)
Lemma date_le_toordinal a b :
  valid_date a → valid_date b →
  (date_le a b = true ↔ toordinal a <= toordinal b).
Proof.
  intros Ha Hb. unfold date_le.
  repeat (rewrite orb_true_iff || rewrite andb_true_iff).
  rewrite !Z.ltb_lt, !Z.eqb_eq, Z.leb_le.
  destruct (Z.lt_trichotomy (year a) (year b)) as [Hy | [Hy | Hy]].
  - pose proof (toordinal_lt_year a b Ha Hb Hy). lia.
  - destruct Ha as [Hma Hda], Hb as [Hmb Hdb]. unfold toordinal. rewrite Hy in *.
    destruct (Z.lt_trichotomy (month a) (month b)) as [Hm | [Hm | Hm]].
    + pose proof (day_of_year_mono _ _ _ _ _ Hma Hda Hmb Hdb Hm). lia.
    + rewrite Hm. lia.
    + pose proof (day_of_year_mono _ _ _ _ _ Hmb Hdb Hma Hda Hm). lia.
  - pose proof (toordinal_lt_year b a Hb Ha Hy). lia.
Qed.

(** ** Rounding *)

(** [rint] is within one half of its argument. *)
Lemma rint_bound (q : Q) :
  - Zpos (Qden q) <= 2 * (Qnum q - rint q * Zpos (Qden q)) <= Zpos (Qden q).
Proof.
  unfold rint. destruct q as [n d]. simpl.
  pose proof (Z.div_mod n (Zpos d) ltac:(done)) as Hdm.
  pose proof (Z.mod_pos_bound n (Zpos d) ltac:(done)) as Hm.
  destruct (Z.compare_spec (2 * (n mod Zpos d)) (Zpos d)) as [He | Hl | Hg].
  - destruct (Z.even (n / Zpos d)); nia.
  - nia.
  - nia.
Qed.


Lemma append_empty_r (s : string) : s +:+ "" = s.
Proof.
  induction s as [|c s IH]; [done |].
  change (String c (s +:+ "") = String c s). by rewrite IH.
Qed.

(** ** What Stage A writes *)

Section Written.

Variable parse_date : list cell → string → option date.
Variable parse_number : string → option float64.
Variable today : date.
Variable ts : string.

(** The frame written has the final columns, and its rows are, in order,
    the images of some of the records of the table: those that survive
    the deduplication and the filter on hire dates. *)
Lemma stage_a_written t out :
  stage_a parse_date parse_number today ts t = Some out →
  columns out = final_cols ∧
  Forall (λ c, c ∈ columns_at_end (header t)) (required ++ derived) ∧
  ∃ hs bs recs,
    sublist recs (body t) ∧
    Forall (λ rec, hire_ok today (parsed_row parse_date parse_number hs bs rec) = true)
           recs ∧
    rows out
    = record_row parse_date parse_number today ts hs bs (columns_at_end (header t))
        <$> recs.
Proof.
  intros [Hreq ->]%stage_a_Some. split; [done |].
  split; [by apply columns_at_end_written |].
  apply stage_a_rows_records.
Qed.

(** The tenure of a row written was computed: nothing overflowed. *)
Lemma stage_a_tenure_fits t out :
  stage_a parse_date parse_number today ts t = Some out →
  ∀ r, r ∈ rows out →
    ∃ c, tenure_ratio today (r !!! "hire_date") = Some c ∧
         r !!! "tenure_years" = round1 c.
Proof.
  intros [(Hreq & _ & _ & Hten) ->]%stage_a_runs r.
  pose proof (columns_at_end_written _ Hreq) as Hhave.
  simpl. unfold stage_a_rows. intros (p & -> & Hp)%list_elem_of_fmap.
  rewrite finish_tenure_years, finish_hire_date by done.
  destruct (proj1 (Forall_forall _ _) Hten p Hp) as [c Hc].
  exists c. split; [done |]. by rewrite <- (tenure_ratio_quotient _ _ _ Hc).
Qed.

Lemma hire_ok_iff (r : row) :
  hire_ok today r = true ↔ not_future today (r !!! "hire_date").
Proof.
  unfold hire_ok, not_future. destruct (r !!! "hire_date") as [| s | x | z | d]; simpl;
    split; try done; try (by left); try (by intros [? | (? & ? & ?)]).
  - intros ?. right. by exists d.
  - intros [? | (d' & [= <-] & ?)]; done.
Qed.

Lemma datetime_cell_cases s c :
  datetime_cell parse_date s c = Missing ∨ ∃ d, datetime_cell parse_date s c = Day d.
Proof.
  destruct c as [| x | x | z | d]; simpl; try (by left).
  - destruct (parse_date s x) as [d|]; simpl; [right; by exists d | by left].
  - right. by exists d.
Qed.

Lemma to_numeric_cases c :
  to_numeric parse_number (str_method PyStr.remove_currency (astype_str c)) = Missing ∨
  ∃ x, to_numeric parse_number (str_method PyStr.remove_currency (astype_str c)) = Num x.
Proof.
  assert (∃ s, str_method PyStr.remove_currency (astype_str c) = Str s) as [s ->].
  { destruct c; simpl; eauto. }
  simpl. destruct (parse_number s) as [x|]; simpl; [right; by exists x | by left].
Qed.

End Written.

(** ** The claims about Stage A *)

Section StageAClaims.

Variable parse_date : list cell → string → option date.
Variable parse_number : string → option float64.
Variable today : date.
Variable ts : string.

Abbreviation run := (stage_a parse_date parse_number today ts).

(** C3. [salary_band] is a function of the salary alone, defined on
    every salary: no salary gives "Unknown", a salary under 50000
    "Junior", one from 50000 and under 80000 "Mid", one from 80000 on
    "Senior"; the four boundary values fall as stated.  In every row
    Stage A writes, the salary is missing or a number and the band is
    the band of that salary. *)
Theorem salary_band_by_threshold (t : table) (out : frame) :
  run t = Some out →
  (∀ r, r ∈ rows out →
     (r !!! "salary" = Missing ∨ ∃ x, r !!! "salary" = Num x) ∧
     r !!! "salary_band" = Str (salary_band (as_float (r !!! "salary")))) ∧
  as_float Missing = None ∧
  salary_band None = "Unknown" ∧
  (∀ q, (q < 50000)%Q → salary_band (Some (Fin q)) = "Junior") ∧
  (∀ q, (50000 <= q)%Q → (q < 80000)%Q → salary_band (Some (Fin q)) = "Mid") ∧
  (∀ q, (80000 <= q)%Q → salary_band (Some (Fin q)) = "Senior") ∧
  salary_band (Some NegInf) = "Junior" ∧
  salary_band (Some PosInf) = "Senior" ∧
  salary_band (Some (Fin 49999.99)) = "Junior" ∧
  salary_band (Some (Fin 50000)) = "Mid" ∧
  salary_band (Some (Fin 79999.99)) = "Mid" ∧
  salary_band (Some (Fin 80000)) = "Senior".
Proof.
  intros (_ & Hhave & hs & bs & recs & _ & _ & Hrows)%stage_a_written.
  split; [| split; [done | split; [done |]]].
  - rewrite Hrows. intros r (rec & -> & _)%list_elem_of_fmap. unfold record_row.
    rewrite finish_salary, finish_salary_band, parsed_salary by done.
    split; [apply to_numeric_cases | done].
  - assert (∀ a b, Qltb a b = true ↔ (a < b)%Q) as Hlt.
    { intros a b. unfold Qltb. rewrite negb_true_iff, <- not_true_iff_false, Qle_bool_iff.
      split; [apply Qnot_le_lt | apply Qlt_not_le]. }
    assert (∀ a b, Qltb a b = false ↔ (b <= a)%Q) as Hge.
    { intros a b. unfold Qltb. rewrite negb_false_iff, Qle_bool_iff. done. }
    repeat split; try done.
    + intros q Hq. unfold salary_band, flt. by rewrite (proj2 (Hlt _ _) Hq).
    + intros q Hq1 Hq2. unfold salary_band, flt.
      by rewrite (proj2 (Hge _ _) Hq1), (proj2 (Hlt _ _) Hq2).
    + intros q Hq. unfold salary_band, flt.
      assert ((50000 <= q)%Q) as Hq1.
      { apply Qle_trans with 80000%Q; [| exact Hq]. unfold Qle. simpl. lia. }
      by rewrite (proj2 (Hge _ _) Hq1), (proj2 (Hge _ _) Hq).
Qed.

(** C6. In every row Stage A writes, the age is missing exactly when the
    birth date is, and it is [calc_age] of the birth date otherwise: the
    difference of the years, less one when the month and day of the run
    date come before the month and day of birth.  Born 2000-03-15, one
    is 23 on 2024-03-14 and 24 on 2024-03-15. *)
Theorem age_from_birth_date (t : table) (out : frame) :
  run t = Some out →
  (∀ r, r ∈ rows out →
     r !!! "age" = of_int (calc_age today (as_date (r !!! "birth_date"))) ∧
     (r !!! "age" = Missing ↔ r !!! "birth_date" = Missing)) ∧
  (∀ b, calc_age today b = None ↔ b = None) ∧
  (∀ b, month today < month b ∨ (month today = month b ∧ day today < day b) →
        calc_age today (Some b) = Some (year today - year b - 1)) ∧
  (∀ b, ¬ (month today < month b ∨ (month today = month b ∧ day today < day b)) →
        calc_age today (Some b) = Some (year today - year b)) ∧
  calc_age (mkdate 2024 3 14) (Some (mkdate 2000 3 15)) = Some 23 ∧
  calc_age (mkdate 2024 3 15) (Some (mkdate 2000 3 15)) = Some 24.
Proof.
  intros (_ & Hhave & hs & bs & recs & _ & _ & Hrows)%stage_a_written.
  split; [| split; [| split; [| split; [| done]]]].
  - rewrite Hrows. intros r (rec & -> & _)%list_elem_of_fmap. unfold record_row.
    rewrite finish_age, finish_birth_date, parsed_birth_date by done.
    split; [done |].
    destruct (datetime_cell_cases parse_date bs
                (match rec !! "birth_date" with Some s => Str s | None => Missing end))
      as [-> | (d & ->)]; simpl; [done |].
    split; intros [=].
  - intros [b|]; simpl; split; done.
  - intros b Hlt. unfold calc_age, pair_lt. simpl.
    replace ((month today <? month b) || (month today =? month b) && (day today <? day b))
      with true; [done |].
    symmetry. apply orb_true_iff. rewrite andb_true_iff, !Z.ltb_lt, Z.eqb_eq. done.
  - intros b Hge. unfold calc_age, pair_lt. simpl.
    replace ((month today <? month b) || (month today =? month b) && (day today <? day b))
      with false; [done |].
    symmetry. apply not_true_iff_false.
    rewrite orb_true_iff, andb_true_iff, !Z.ltb_lt, Z.eqb_eq. done.
Qed.


(** C10. The rows Stage A writes come, in order, from records of the
    table; a record without an e-mail address gets the string "nan" as
    its address and the empty string as its domain; and the address of a
    row written is always a string, never missing. *)
Theorem missing_email_is_nan (t : table) (out : frame) :
  run t = Some out →
  ∃ recs,
    sublist recs (body t) ∧
    Forall2 (λ (rec : gmap string string) (r : row),
               r !!! "employee_id"
               = match rec !! "employee_id" with Some s => Str s | None => Missing end ∧
               (rec !! "email" = None →
                r !!! "email" = Str "nan" ∧ r !!! "email_domain" = Str ""))
            recs (rows out) ∧
    ∀ r, r ∈ rows out → ∃ s, r !!! "email" = Str s.
Proof.
  intros (_ & Hhave & hs & bs & recs & Hsub & _ & Hrows)%stage_a_written.
  exists recs. split; [done |]. rewrite Hrows. split.
  - apply Forall2_fmap_r, Forall_Forall2_diag, Forall_forall.
    intros rec _. unfold record_row, compose. cbv beta.
    rewrite finish_employee_id, finish_email, finish_email_domain by done.
    rewrite parsed_employee_id, parsed_email_domain, parsed_email.
    split; [done |]. by intros ->.
  - intros r (rec & -> & _)%list_elem_of_fmap. unfold record_row.
    rewrite finish_email, parsed_email by done.
    destruct (rec !! "email"); simpl; eauto.
Qed.

(** C5, as the code has it.  The rows Stage A writes come, in order,
    from records of the table; the two names of a row are the
    title-cased names of its record, missing when the record has none;
    and the full name is the first name, one space, and the last name,
    a missing name counting as the empty string.  Nothing is trimmed:
    with no first name the full name starts with the space, with no last
    name it ends with it. *)
Theorem full_name_concatenation (t : table) (out : frame) :
  run t = Some out →
  ∃ recs,
    sublist recs (body t) ∧
    Forall2 (λ (rec : gmap string string) (r : row),
               let first := PyStr.title <$> rec !! "first_name" in
               let last := PyStr.title <$> rec !! "last_name" in
               r !!! "first_name" = of_text first ∧
               r !!! "last_name" = of_text last ∧
               r !!! "full_name" = Str ((default "" first +:+ " ") +:+ default "" last) ∧
               (first = None → r !!! "full_name" = Str (" " +:+ default "" last)) ∧
               (last = None → r !!! "full_name" = Str (default "" first +:+ " ")))
            recs (rows out).
Proof.
  intros (_ & Hhave & hs & bs & recs & Hsub & _ & Hrows)%stage_a_written.
  exists recs. split; [done |]. rewrite Hrows.
  apply Forall2_fmap_r, Forall_Forall2_diag, Forall_forall.
  intros rec _. unfold record_row, compose. cbv beta zeta.
  rewrite finish_first_name, finish_last_name, finish_full_name by done.
  rewrite parsed_full_name, parsed_first_name, parsed_last_name.
  destruct (rec !! "first_name") as [f|], (rec !! "last_name") as [l|]; simpl;
    repeat split; try done.
  intros _. by rewrite append_empty_r.
Qed.

(** C4, as the code has it.  The frame Stage A writes has, on every run,
    the columns of [final_cols] in the order of [final_cols]; these are
    the twenty-two columns of the data-model table, each once, in
    another order. *)
Theorem final_columns_fixed (t : table) (out : frame) :
  run t = Some out →
  columns out = final_cols ∧
  (∀ r, r ∈ rows out → dom r = list_to_set final_cols) ∧
  final_cols ≡ₚ spec_columns ∧
  NoDup final_cols ∧
  length final_cols = 22%nat.
Proof.
  intros [_ ->]%stage_a_Some. simpl. split; [done |].
  split; [| split; [| split; [| done]]].
  - unfold stage_a_rows, finish_row.
    intros r (p & -> & _)%list_elem_of_fmap. unfold compose, project.
    rewrite dom_list_to_map_L, <- list_fmap_compose. reflexivity.
  - apply (bool_decide_unpack _). vm_compute. exact I.
  - apply (bool_decide_unpack _). vm_compute. exact I.
Qed.

End StageAClaims.

(** C8. On a frame that has the eight sample columns (as every frame
    with the columns of Stage A has), Stage B returns a frame with these
    eight columns, in the order of [cols], whose rows are the first ten
    rows of the input, or all of them when there are fewer, in their
    order, each cut down to the eight columns with its cells unchanged.
    Fifteen rows give ten. *)
Theorem stage_b_first_ten (df : frame) :
  Forall (λ c, c ∈ columns df) cols →
  ∃ out,
    stage_b df = Some out ∧
    columns out = cols ∧
    rows out = project (columns df) cols <$> take 10 (rows df) ∧
    length (rows out) = min 10 (length (rows df)) ∧
    (∀ i r', rows out !! i = Some r' ↔
       (i < 10)%nat ∧ ∃ r, rows df !! i = Some r ∧ r' = project (columns df) cols r) ∧
    (∀ (r : row) c, project (columns df) cols r !! c
                    = if decide (c ∈ cols) then Some (r !!! c) else None) ∧
    (length (rows df) = 15%nat → length (rows out) = 10%nat) ∧
    Forall (λ c, c ∈ final_cols) cols ∧
    NoDup cols ∧
    length cols = 8%nat.
Proof.
  intros Hcols.
  exists (Frame cols (project (columns df) cols <$> take 10 (rows df))).
  split.
  { unfold stage_b. rewrite (proj2 (getitem_list_Some cols df _) (conj Hcols eq_refl)).
    simpl. unfold head. simpl. by rewrite fmap_take. }
  simpl. split; [done |]. split; [done |].
  split; [by rewrite length_fmap, length_take |].
  split; [| split; [| split; [| split; [| split; [| done]]]]].
  - intros i r'. rewrite list_lookup_fmap, fmap_Some. split.
    + intros (r & Hr & ->). apply lookup_take_Some in Hr as [Hr Hi]. eauto.
    + intros (Hi & r & Hr & ->). exists r. split; [| done].
      by apply lookup_take_Some.
  - intros r c. rewrite project_lookup.
    destruct (decide (c ∈ cols)) as [Hc | Hc]; [| done].
    rewrite decide_True; [done |]. revert c Hc. by apply Forall_forall.
  - intros Hlen. rewrite length_fmap, length_take, Hlen. done.
  - apply (bool_decide_unpack _). vm_compute. exact I.
  - apply (bool_decide_unpack _). vm_compute. exact I.
Qed.

(** ** The sample run *)

(** C4 as worded fails: the columns written are not in the order of the
    data-model table. *)
Lemma spec_column_order_counterexample :
  ∃ out, Sample.cleaned = Some out ∧ columns out ≠ spec_columns.
Proof.
  exists Sample.written. split; [vm_compute; reflexivity |].
  vm_compute. discriminate.
Qed.

(** C5 as worded fails: the record without a first name gets a full name
    that starts with the separating space; it is not trimmed. *)
Lemma trimmed_full_name_counterexample :
  ∃ out,
    Sample.cleaned = Some out ∧
    (λ r : row, (r !!! "first_name", r !!! "last_name", r !!! "full_name")) <$> rows out
    = [(Str "Jane", Str "Doe", Str "Jane Doe"); (Missing, Str "Doe", Str " Doe")] ∧
    spec_full_name Missing (Str "Doe") = Str "Doe" ∧
    ¬ (∀ r, r ∈ rows out →
         r !!! "full_name" = spec_full_name (r !!! "first_name") (r !!! "last_name")).
Proof.
  exists Sample.written. split; [vm_compute; reflexivity |].
  split; [vm_compute; reflexivity |].
  split; [vm_compute; reflexivity |].
  intros H.
  assert (key_of "full_name" <$> rows Sample.written
          = (λ r : row, spec_full_name (r !!! "first_name") (r !!! "last_name"))
              <$> rows Sample.written) as Heq.
  { apply list_fmap_ext. intros i r Hr. apply H. by eapply list_elem_of_lookup_2. }
  vm_compute in Heq. discriminate.
Qed.

(** The two records with identifier E1 give one row, with the salary of
    the first; the record hired in 2030 gives none. *)
Example sample_rows :
  (λ r : row, (r !!! "employee_id", r !!! "salary", r !!! "salary_band",
               r !!! "email", r !!! "email_domain", r !!! "age",
               r !!! "tenure_years", r !!! "status")) <$> rows Sample.written
  = [(Str "E1", Num (Fin 45000), Str "Junior", Str "jane.doe@example.com",
      Str "example.com", Int 23, Num (Fin 4.2), Str "Active");
     (Str "E2", Missing, Str "Unknown", Str "nan", Str "", Missing, Missing,
      Str "Leave")].
Proof. vm_compute. reflexivity. Qed.

Example sample_email_domain :
  PyStr.search_domain (PyStr.lower (PyStr.strip "Jane.Doe@Example.COM "))
  = Some "example.com".
Proof. reflexivity. Qed.

Abbreviation sample_run :=
  (stage_a Sample.iso_date Sample.plain_number Sample.run_date Sample.run_ts
     Sample.roster).

Lemma salary_band_by_threshold_witness :
  sample_run = Some Sample.written ∧
  ∀ r, r ∈ rows Sample.written →
    r !!! "salary_band" = Str (salary_band (as_float (r !!! "salary"))).
Proof.
  assert (sample_run = Some Sample.written) as Hrun by (vm_compute; reflexivity).
  split; [exact Hrun |].
  destruct (salary_band_by_threshold Sample.iso_date Sample.plain_number Sample.run_date
              Sample.run_ts Sample.roster Sample.written Hrun) as (H & _).
  intros r Hr. exact (proj2 (H r Hr)).
Defined.

Lemma age_from_birth_date_witness :
  sample_run = Some Sample.written ∧
  ∀ r, r ∈ rows Sample.written →
    r !!! "age" = of_int (calc_age Sample.run_date (as_date (r !!! "birth_date"))).
Proof.
  assert (sample_run = Some Sample.written) as Hrun by (vm_compute; reflexivity).
  split; [exact Hrun |].
  destruct (age_from_birth_date Sample.iso_date Sample.plain_number Sample.run_date
              Sample.run_ts Sample.roster Sample.written Hrun) as (H & _).
  intros r Hr. exact (proj1 (H r Hr)).
Defined.


Lemma missing_email_is_nan_witness :
  sample_run = Some Sample.written ∧
  ∀ r, r ∈ rows Sample.written → ∃ s, r !!! "email" = Str s.
Proof.
  assert (sample_run = Some Sample.written) as Hrun by (vm_compute; reflexivity).
  split; [exact Hrun |].
  destruct (missing_email_is_nan Sample.iso_date Sample.plain_number Sample.run_date
              Sample.run_ts Sample.roster Sample.written Hrun) as (recs & _ & _ & H).
  exact H.
Defined.

Lemma full_name_concatenation_witness :
  sample_run = Some Sample.written ∧
  ∃ recs, sublist recs (body Sample.roster) ∧ length recs = length (rows Sample.written).
Proof.
  assert (sample_run = Some Sample.written) as Hrun by (vm_compute; reflexivity).
  split; [exact Hrun |].
  destruct (full_name_concatenation Sample.iso_date Sample.plain_number Sample.run_date
              Sample.run_ts Sample.roster Sample.written Hrun) as (recs & Hsub & H).
  exists recs. split; [exact Hsub | exact (Forall2_length _ _ _ H)].
Defined.

Lemma final_columns_fixed_witness :
  sample_run = Some Sample.written ∧ columns Sample.written = final_cols.
Proof.
  assert (sample_run = Some Sample.written) as Hrun by (vm_compute; reflexivity).
  split; [exact Hrun |].
  destruct (final_columns_fixed Sample.iso_date Sample.plain_number Sample.run_date
              Sample.run_ts Sample.roster Sample.written Hrun) as (H & _).
  exact H.
Defined.

Lemma stage_b_first_ten_witness :
  Forall (λ c, c ∈ columns Sample.fifteen) cols ∧
  ∃ out, stage_b Sample.fifteen = Some out ∧ length (rows out) = 10%nat.
Proof.
  assert (Forall (λ c, c ∈ columns Sample.fifteen) cols) as Hcols.
  { apply (bool_decide_unpack _). vm_compute. exact I. }
  split; [exact Hcols |].
  destruct (stage_b_first_ten Sample.fifteen Hcols)
    as (out & Hrun & _ & _ & _ & _ & _ & Hlen & _).
  exists out. split; [exact Hrun |]. apply Hlen. reflexivity.
Defined.

(** * More of the two scripts *)

(** ** Lists *)

Lemma filter_fmap {A B} (f : A → B) (P : B → Prop) `{!∀ y, Decision (P y)}
    (l : list A) :
  filter P (f <$> l) = f <$> filter (λ x, P (f x)) l.
Proof.
  induction l as [|x l IH]; [done |]. rewrite fmap_cons, !filter_cons.
  destruct (decide (P (f x))); csimpl; by rewrite IH.
Qed.

Lemma sublist_fmap_of {A B} (f : A → B) (l1 l2 : list A) :
  sublist l1 l2 → sublist (f <$> l1) (f <$> l2).
Proof.
  induction 1; csimpl; [constructor | by apply sublist_skip | by apply sublist_cons].
Qed.

Lemma NoDup_fmap_elem {A B} (f : A → B) (l : list A) x y :
  NoDup (f <$> l) → x ∈ l → y ∈ l → f x = f y → x = y.
Proof.
  induction l as [|z l IH]; [by intros _ ?%elem_of_nil |].
  rewrite fmap_cons, NoDup_cons.
  intros [Hz Hnd] [-> | Hx]%elem_of_cons [-> | Hy]%elem_of_cons Heq; try done.
  - exfalso. apply Hz. rewrite Heq. by apply list_elem_of_fmap_2.
  - exfalso. apply Hz. rewrite <- Heq. by apply list_elem_of_fmap_2.
  - by apply IH.
Qed.

(** ** The records that are kept *)

Section Kept.

Variable parse_date : list cell → string → option date.
Variable parse_number : string → option float64.
Variable today : date.
Variable ts : string.

(** The records the deduplicator keeps, the rows they are when they
    reach the filter, and the rows written, which are those of the kept
    records that pass the filter. *)
Lemma stage_a_rows_kept_raw t :
  ∃ kept,
    sublist kept (body t) ∧
    dedup_from "employee_id" [] (rows (read_csv t))
    = (λ rec : gmap string string, (Str <$> rec : row)) <$> kept ∧
    let rs := (salary_row parse_number ∘ email_row ∘ names_row ∘ fill_row)
                <$> ((λ rec : gmap string string, (Str <$> rec : row)) <$> kept) in
    let hs := key_of "hire_date" <$> rs in
    let bs := key_of "birth_date"
                <$> (set_cell "hire_date" "hire_date" (datetime_cell parse_date hs) <$> rs) in
    parsed_rows parse_date parse_number t
    = parsed_row parse_date parse_number hs bs <$> kept ∧
    stage_a_rows parse_date parse_number today ts t
    = record_row parse_date parse_number today ts hs bs (columns_at_end (header t))
        <$> filter (λ rec, hire_ok today (parsed_row parse_date parse_number hs bs rec) = true)
              kept.
Proof.
  destruct (sublist_fmap_inv (λ rec : gmap string string, (Str <$> rec : row)) (body t)
              (dedup_from "employee_id" [] (rows (read_csv t)))) as (kept & Hsub & Hdd).
  { apply dedup_from_sublist. }
  exists kept. split; [done |]. split; [done |].
  unfold stage_a_rows, parsed_rows, dates_rows. rewrite Hdd.
  set (rs := _ <$> (_ <$> kept)).
  set (hs := key_of "hire_date" <$> rs).
  set (bs := key_of "birth_date" <$> _).
  assert (set_cell "birth_date" "birth_date" (datetime_cell parse_date bs)
            <$> (set_cell "hire_date" "hire_date" (datetime_cell parse_date hs) <$> rs)
          = parsed_row parse_date parse_number hs bs <$> kept) as ->.
  { subst rs. rewrite <- !list_fmap_compose.
    unfold parsed_row, compose. reflexivity. }
  split; [done |].
  rewrite filter_fmap, <- list_fmap_compose. unfold record_row, compose. reflexivity.
Qed.

(** The two series handed to the date parser are the raw hire dates and
    the raw birth dates of the records kept. *)
Lemma stage_a_rows_series t :
  ∃ kept,
    sublist kept (body t) ∧
    dedup_from "employee_id" [] (rows (read_csv t))
    = (λ rec : gmap string string, (Str <$> rec : row)) <$> kept ∧
    let hs := raw_series "hire_date" kept in
    let bs := raw_series "birth_date" kept in
    parsed_rows parse_date parse_number t
    = parsed_row parse_date parse_number hs bs <$> kept ∧
    stage_a_rows parse_date parse_number today ts t
    = record_row parse_date parse_number today ts hs bs (columns_at_end (header t))
        <$> filter (λ rec, hire_ok today (parsed_row parse_date parse_number hs bs rec) = true)
              kept.
Proof.
  destruct (stage_a_rows_kept_raw t)
    as (kept & Hsub & Hdd & Hp & Hr).
  exists kept. split; [done |]. split; [done |].
  assert (key_of "hire_date"
            <$> ((salary_row parse_number ∘ email_row ∘ names_row ∘ fill_row)
                   <$> ((λ rec : gmap string string, (Str <$> rec : row)) <$> kept))
          = raw_series "hire_date" kept) as Hhs.
  { unfold raw_series. rewrite <- !list_fmap_compose. apply list_fmap_ext.
    intros i rec _. unfold key_of, salary_row, email_row, names_row, fill_row.
    cells. rewrite raw_lookup. by destruct (rec !! "hire_date"). }
  assert (∀ hs, key_of "birth_date"
            <$> (set_cell "hire_date" "hire_date" (datetime_cell parse_date hs)
                   <$> ((salary_row parse_number ∘ email_row ∘ names_row ∘ fill_row)
                          <$> ((λ rec : gmap string string, (Str <$> rec : row)) <$> kept)))
          = raw_series "birth_date" kept) as Hbs.
  { intros hs. unfold raw_series. rewrite <- !list_fmap_compose. apply list_fmap_ext.
    intros i rec _. unfold key_of, salary_row, email_row, names_row, fill_row.
    cells. rewrite raw_lookup. by destruct (rec !! "birth_date"). }
  cbv zeta. rewrite Hbs, Hhs in Hp, Hr. done.
Qed.
End Kept.

(** ** The exceptions of the filter and of the tenure *)

Lemma dt_date_dtype_Object (s : list cell) :
  dt_date_dtype s = Object ↔ s = [] ∨ ∃ c, c ∈ s ∧ c ≠ Missing.
Proof.
  unfold dt_date_dtype. destruct s as [|c s]; [split; [by left | done] |].
  destruct (forallb isna (c :: s)) eqn:Hall.
  - split; [done |]. intros [? | (c' & Hin & Hc')]; [done |].
    assert (Forall (λ c, isna c) (c :: s)) as HF.
    { apply forallb_True. by rewrite Hall. }
    pose proof (proj1 (Forall_forall _ _) HF c' Hin) as Hna.
    by destruct c'.
  - split; [| done]. intros _. right.
    assert (¬ Forall (λ c, isna c) (c :: s)) as HF.
    { rewrite <- forallb_True, Hall. simpl. tauto. }
    apply not_Forall_Exists in HF; [| apply _].
    apply Exists_exists in HF as (c' & Hin & Hc').
    exists c'. split; [done |]. intros ->. by apply Hc'.
Qed.

Lemma to_timestamp_Some d x :
  to_timestamp d = Some x → x = (toordinal d - 719163) * ns_per_day.
Proof. unfold to_timestamp. by destruct (fits_ns _); intros [= <-]. Qed.

(** A difference of two midnights fits when they are at most 106751
    days apart, which is a little over 292 years. *)
Lemma fits_ns_days a b :
  fits_ns ((b - 719163) * ns_per_day - (a - 719163) * ns_per_day) = true
  ↔ Z.abs (a - b) <= 106751.
Proof.
  unfold fits_ns, int64_max, ns_per_day.
  change (2 ^ 63) with 9223372036854775808.
  rewrite andb_true_iff, !Z.leb_le. lia.
Qed.

Lemma tenure_ratio_is_Some today c :
  is_Some (tenure_ratio today c) ↔
  is_Some (to_timestamp today) ∧
  ∀ d, c = Day d →
    is_Some (to_timestamp d) ∧ Z.abs (toordinal today - toordinal d) <= 106751.
Proof.
  unfold tenure_ratio.
  destruct (to_timestamp today) as [now|] eqn:Hnow; simpl;
    [| split; [by intros [? ?] | by intros [[? ?] _]]].
  apply to_timestamp_Some in Hnow.
  destruct c as [| s | x | z | d]; simpl;
    try (split; [intros _; split; [by eexists | by intros ? [=]] | by eexists]).
  destruct (to_timestamp d) as [x|] eqn:Hd; simpl.
  - pose proof (to_timestamp_Some _ _ Hd) as Hx. unfold timestamp_sub.
    destruct (fits_ns (x - now)) eqn:Hfit; simpl.
    + split; [| by eexists]. intros _. split; [by eexists |].
      intros d' [= <-]. split; [by eexists |].
      subst x now. by apply fits_ns_days.
    + split; [by intros [? ?] |]. intros [_ H].
      destruct (H d eq_refl) as [_ Habs].
      apply fits_ns_days in Habs. subst x now. congruence.
  - split; [by intros [? ?] |]. intros [_ H].
    destruct (H d eq_refl) as [[? ?] _]. congruence.
Qed.

(** ** Stage A as a whole *)

Section StageAWhole.

Variable parse_date : list cell → string → option date.
Variable parse_number : string → option float64.
Variable today : date.
Variable ts : string.

Abbreviation run := (stage_a parse_date parse_number today ts).
Abbreviation parsed kept :=
  (parsed_row parse_date parse_number
     (raw_series "hire_date" kept) (raw_series "birth_date" kept)).
Abbreviation written t kept :=
  (record_row parse_date parse_number today ts
     (raw_series "hire_date" kept) (raw_series "birth_date" kept)
     (columns_at_end (header t))).

(** The frame written, from the records the deduplicator keeps. *)
Lemma stage_a_records t out :
  run t = Some out →
  Forall (λ c, c ∈ columns_at_end (header t)) (required ++ derived) ∧
  ∃ kept,
    sublist kept (body t) ∧
    drop_duplicates "employee_id" (read_csv t)
    = Some (Frame (header t) ((λ rec : gmap string string, (Str <$> rec : row)) <$> kept)) ∧
    NoDup (raw_series "employee_id" kept) ∧
    rows out
    = written t kept <$> filter (λ rec, hire_ok today (parsed kept rec) = true) kept.
Proof.
  intros [Hreq ->]%stage_a_Some. simpl.
  split; [by apply columns_at_end_written |].
  destruct (stage_a_rows_series parse_date parse_number today ts t)
    as (kept & Hsub & Hdd & _ & Hrows).
  exists kept. split; [done |]. split; [| split; [| done]].
  - apply drop_duplicates_Some. split.
    + apply Forall_cons in Hreq as [Hid _]. exact Hid.
    + rewrite Hdd. reflexivity.
  - pose proof (dedup_from_NoDup "employee_id" [] (rows (read_csv t))) as Hnd.
    rewrite Hdd, <- list_fmap_compose in Hnd. unfold raw_series.
    erewrite list_fmap_ext; [exact Hnd |].
    intros i rec _. unfold compose, key_of. rewrite raw_lookup.
    by destruct (rec !! "employee_id").
Qed.

Lemma written_employee_id t kept rec :
  Forall (λ c, c ∈ columns_at_end (header t)) (required ++ derived) →
  written t kept rec !!! "employee_id" = of_text (rec !! "employee_id").
Proof.
  intros Hhave. unfold record_row.
  rewrite finish_employee_id, parsed_employee_id by done.
  by destruct (rec !! "employee_id").
Qed.

Lemma parsed_hire_ok kept rec :
  hire_ok today (parsed kept rec) = true ↔
  match rec !! "hire_date" with
  | None => True
  | Some s =>
      match parse_date (raw_series "hire_date" kept) s with
      | None => True
      | Some d => date_le d today = true
      end
  end.
Proof.
  unfold hire_ok. rewrite parsed_hire_date.
  destruct (rec !! "hire_date") as [s|]; simpl; [| done].
  destruct (parse_date _ s) as [d|]; simpl; done.
Qed.

Lemma written_hire_date t kept rec :
  Forall (λ c, c ∈ columns_at_end (header t)) (required ++ derived) →
  written t kept rec !!! "hire_date"
  = match rec !! "hire_date" with
    | Some s => of_date (parse_date (raw_series "hire_date" kept) s)
    | None => Missing
    end.
Proof.
  intros Hhave. unfold record_row.
  rewrite finish_hire_date, parsed_hire_date by done.
  by destruct (rec !! "hire_date").
Qed.

(** C1. When Stage A returns a frame, its rows are, in order, the images
    of the records the deduplicator keeps whose hire date is missing
    (absent, or not parsed) or not after the run date.  Such a record
    has a row with its employee_id and its parsed hire date; a record
    kept whose hire date is after the run date has no row with its
    employee_id at all; and no row written has a hire date after the
    run date.  The filter itself, when the comparison is possible,
    keeps the columns and, in their order, exactly the rows whose hire
    date is missing or not after the run date.  "Not after" is the
    order of [datetime.date], which on dates of the calendar is the
    order of the day counts. *)
Theorem future_hires_dropped (t : table) (out : frame) :
  run t = Some out →
  (∃ kept,
     sublist kept (body t) ∧
     drop_duplicates "employee_id" (read_csv t)
     = Some (Frame (header t) ((λ rec : gmap string string, (Str <$> rec : row)) <$> kept)) ∧
     rows out
     = written t kept <$> filter (λ rec, hire_ok today (parsed kept rec) = true) kept ∧
     ∀ rec, rec ∈ kept →
       let hire := match rec !! "hire_date" with
                   | Some s => of_date (parse_date (raw_series "hire_date" kept) s)
                   | None => Missing
                   end in
       written t kept rec !!! "hire_date" = hire ∧
       written t kept rec !!! "employee_id" = of_text (rec !! "employee_id") ∧
       (written t kept rec ∈ rows out ↔ not_future today hire) ∧
       ((∃ r, r ∈ rows out ∧ r !!! "employee_id" = of_text (rec !! "employee_id"))
        ↔ not_future today hire)) ∧
  (∀ r, r ∈ rows out → not_future today (r !!! "hire_date")) ∧
  (∀ dt df df', remove_future_hires today dt df = Some df' →
     columns df' = columns df ∧
     sublist (rows df') (rows df) ∧
     ∀ r, r ∈ rows df' ↔ r ∈ rows df ∧ not_future today (r !!! "hire_date")) ∧
  (∀ d, valid_date d → valid_date today →
     (date_le d today = true ↔ toordinal d <= toordinal today)).
Proof.
  intros (Hhave & kept & Hsub & Hdd & Hnd & ->)%stage_a_records.
  assert (∀ rec, hire_ok today (parsed kept rec) = true
                 ↔ not_future today (written t kept rec !!! "hire_date")) as Hok.
  { intros rec. rewrite hire_ok_iff. unfold record_row.
    by rewrite finish_hire_date. }
  split; [| split; [| split; [| by intros; apply date_le_toordinal]]].
  - exists kept. split; [done |]. split; [done |]. split; [done |].
    intros rec Hrec. cbv zeta. rewrite <- (written_hire_date t kept rec Hhave).
    split; [done |]. split; [by apply written_employee_id |]. split.
    + rewrite list_elem_of_fmap. split.
      * intros (rec' & Heq & [Hok' _]%list_elem_of_filter).
        rewrite Heq. by apply Hok.
      * intros Hnf. exists rec. split; [done |].
        apply list_elem_of_filter. split; [by apply Hok | done].
    + split.
      * intros (r & (rec' & -> & [Hok' Hrec']%list_elem_of_filter)%list_elem_of_fmap & Hid).
        rewrite written_employee_id in Hid by done.
        assert (rec' = rec) as <-; [| by apply Hok].
        by apply (NoDup_fmap_elem (λ rec : gmap string string, of_text (rec !! "employee_id"))
                    kept rec' rec Hnd).
      * intros Hnf. exists (written t kept rec). split.
        -- apply list_elem_of_fmap_2, list_elem_of_filter. split; [by apply Hok | done].
        -- by apply written_employee_id.
  - intros r (rec & -> & [Hok' _]%list_elem_of_filter)%list_elem_of_fmap.
    by apply Hok.
  - intros dt df df' [[Hc _] ->]%remove_future_hires_Some. simpl.
    split; [done |]. split; [apply sublist_filter |].
    intros r. rewrite list_elem_of_filter, hire_ok_iff. tauto.
Qed.


(** X20. When rows reach the filter and none of them has a hire date
    (every one is absent or does not parse), Stage A writes nothing:
    the parsed column is a datetime64 column again, and comparing it
    with the run date at line 42 is a TypeError. *)
Theorem stage_a_stops_without_hire_dates (t : table) :
  key_of "hire_date" <$> parsed_rows parse_date parse_number t ≠ [] →
  Forall (λ c, c = Missing) (key_of "hire_date" <$> parsed_rows parse_date parse_number t) →
  run t = None.
Proof.
  intros Hsome Hall. apply eq_None_not_Some.
  intros [out [(_ & Hdt & _) _]%stage_a_runs].
  apply dt_date_dtype_Object in Hdt as [Hnil | (c & Hc & Hn)]; [done |].
  by apply Hn, (proj1 (Forall_forall _ _) Hall).
Qed.

(** X21. Stage A writes nothing when the run date has no time stamp,
    and when a hire date that passes the filter has none or lies more
    than 106751 days before the run date: the time stamps and their
    difference are 64-bit counts of nanoseconds, and line 56 stops on
    an OutOfBoundsDatetime or an OverflowError. *)
Theorem stage_a_stops_on_overflow (t : table) :
  (to_timestamp today = None → run t = None) ∧
  ∀ d, Day d ∈ key_of "hire_date" <$> parsed_rows parse_date parse_number t →
    date_le d today = true →
    to_timestamp d = None ∨ 106751 < Z.abs (toordinal today - toordinal d) →
    run t = None.
Proof.
  split.
  - intros Hnow. apply eq_None_not_Some.
    intros [out [(_ & _ & [? ?] & _) _]%stage_a_runs]. congruence.
  - intros d (p & Hd & Hp)%list_elem_of_fmap Hle Hbad. apply eq_None_not_Some.
    intros [out [(_ & _ & _ & Hten) _]%stage_a_runs].
    unfold key_of in Hd.
    assert (is_Some (tenure_ratio today (p !!! "hire_date"))) as Hsome.
    { apply (proj1 (Forall_forall _ _) Hten), list_elem_of_filter. split; [| done].
      unfold hire_ok. rewrite <- Hd. simpl. by rewrite Hle. }
    apply tenure_ratio_is_Some in Hsome as [_ Hsome].
    destruct (Hsome d (eq_sym Hd)) as [[x Hx] Habs].
    destruct Hbad as [Hnone | Hfar]; [congruence | lia].
Qed.

(** X2. No two rows Stage A writes have the same employee_id. *)
Theorem written_ids_distinct (t : table) (out : frame) :
  run t = Some out → NoDup (key_of "employee_id" <$> rows out).
Proof.
  intros (Hhave & kept & _ & _ & Hnd & ->)%stage_a_records.
  rewrite <- list_fmap_compose.
  apply (sublist_NoDup _ _ Hnd). unfold raw_series.
  erewrite (list_fmap_ext _ _ (filter _ kept)); [apply sublist_fmap_of, sublist_filter |].
  intros i rec _. unfold compose, key_of. by apply written_employee_id.
Qed.

(** X3. When Stage A returns a frame, rows are lost to the deduplicator
    and to the filter on hire dates only: every record the deduplicator
    keeps whose hire date is absent, does not parse, or parses to a date
    not after the run date has a row with its employee_id in the frame
    written.  A salary or a birth date that does not parse costs no
    row. *)
Theorem kept_record_written (t : table) (out : frame) :
  run t = Some out →
  ∃ kept,
    sublist kept (body t) ∧
    drop_duplicates "employee_id" (read_csv t)
    = Some (Frame (header t) ((λ rec : gmap string string, (Str <$> rec : row)) <$> kept)) ∧
    (length (rows out) ≤ length kept)%nat ∧
    ∀ rec, rec ∈ kept →
      match rec !! "hire_date" with
      | None => True
      | Some s =>
          match parse_date (raw_series "hire_date" kept) s with
          | None => True
          | Some d => date_le d today = true
          end
      end →
      ∃ r, r ∈ rows out ∧ r !!! "employee_id" = of_text (rec !! "employee_id").
Proof.
  intros (Hhave & kept & Hsub & Hdd & _ & ->)%stage_a_records.
  exists kept. split; [done |]. split; [done |]. split.
  - rewrite length_fmap. apply length_filter.
  - intros rec Hrec Hok. exists (written t kept rec). split.
    + apply list_elem_of_fmap_2, list_elem_of_filter. split; [| done].
      by apply parsed_hire_ok.
    + by apply written_employee_id.
Qed.

(** X4. The deduplicator runs before the filter, so the first record of
    an employee_id decides: when the hire date of the record kept parses
    to a date after the run date, no row with that employee_id is
    written, later records with the same employee_id notwithstanding. *)
Theorem first_record_decides (t : table) (out : frame) :
  run t = Some out →
  ∃ kept,
    sublist kept (body t) ∧
    drop_duplicates "employee_id" (read_csv t)
    = Some (Frame (header t) ((λ rec : gmap string string, (Str <$> rec : row)) <$> kept)) ∧
    ∀ rec s d,
      rec ∈ kept →
      rec !! "hire_date" = Some s →
      parse_date (raw_series "hire_date" kept) s = Some d →
      date_le d today = false →
      ∀ r, r ∈ rows out → r !!! "employee_id" ≠ of_text (rec !! "employee_id").
Proof.
  intros (Hhave & kept & Hsub & Hdd & Hnd & ->)%stage_a_records.
  exists kept. split; [done |]. split; [done |].
  intros rec s d Hrec Hs Hd Hlate r
    (rec' & -> & [Hok Hrec']%list_elem_of_filter)%list_elem_of_fmap Hid.
  rewrite written_employee_id in Hid by done.
  assert (rec' = rec) as ->.
  { by apply (NoDup_fmap_elem (λ rec : gmap string string, of_text (rec !! "employee_id"))
                kept rec' rec Hnd). }
  apply parsed_hire_ok in Hok. rewrite Hs, Hd in Hok. congruence.
Qed.

(** X5. The date parser is handed each of the two raw date series of
    the records the deduplicator keeps (those the filter then drops
    included).  A row written has, as hire date and as birth date, what
    the parser makes of the raw string, and a missing date when the
    record has none: a date or missing, never the raw string. *)
Theorem dates_parsed_by_series (t : table) (out : frame) :
  run t = Some out →
  ∃ kept recs,
    drop_duplicates "employee_id" (read_csv t)
    = Some (Frame (header t) ((λ rec : gmap string string, (Str <$> rec : row)) <$> kept)) ∧
    sublist recs kept ∧
    Forall2 (λ (rec : gmap string string) (r : row),
               r !!! "hire_date"
               = match rec !! "hire_date" with
                 | Some s => of_date (parse_date (raw_series "hire_date" kept) s)
                 | None => Missing
                 end ∧
               r !!! "birth_date"
               = match rec !! "birth_date" with
                 | Some s => of_date (parse_date (raw_series "birth_date" kept) s)
                 | None => Missing
                 end)
            recs (rows out).
Proof.
  intros (Hhave & kept & Hsub & Hdd & _ & ->)%stage_a_records.
  exists kept, (filter (λ rec, hire_ok today (parsed kept rec) = true) kept).
  split; [done |]. split; [apply sublist_filter |].
  apply Forall2_fmap_r, Forall_Forall2_diag, Forall_forall.
  intros rec _. unfold record_row, compose. cbv beta.
  rewrite finish_hire_date, finish_birth_date by done.
  rewrite parsed_hire_date, parsed_birth_date.
  by destruct (rec !! "hire_date"), (rec !! "birth_date").
Qed.

End StageAWhole.

(** ** The other columns *)

Lemma not_derived_at_end hdr c :
  c ∉ derived → (c ∈ columns_at_end hdr ↔ c ∈ hdr).
Proof. rewrite elem_of_columns_at_end. tauto. Qed.

(** Membership in the columns at the end of the script, or in a list
    that is written out. *)
Ltac at_end Hhave :=
  match goal with
  | |- _ ∈ columns_at_end _ => apply (in_have _ Hhave); listed
  | |- _ => listed
  end.

Section OtherCells.

Variable parse_date : list cell → string → option date.
Variable parse_number : string → option float64.
Variable today : date.
Variable ts : string.
Variable have : list string.

Ltac finish_cell :=
  unfold band_row, derive_row; cells.

Ltac parsed_cell :=
  unfold parsed_row, salary_row, email_row, names_row, fill_row; cells;
  rewrite ?raw_lookup.

(** A column of the final list that the frame has, before the derived
    cells are looked at. *)
Lemma finish_row_lookup p c :
  c ∈ final_cols →
  finish_row today ts have p !!! c
  = if decide (c ∈ have) then band_row ts (derive_row today p) !!! c else Missing.
Proof.
  intros Hc. unfold finish_row, compose.
  rewrite (lookup_total_alt (project have final_cols _)), project_lookup.
  by rewrite decide_True.
Qed.

Lemma finish_time_stamps p :
  "created_at" ∈ have → "updated_at" ∈ have →
  finish_row today ts have p !!! "created_at" = Str ts ∧
  finish_row today ts have p !!! "updated_at" = Str ts.
Proof.
  intros H1 H2. rewrite !finish_row_lookup by listed.
  rewrite !decide_True by done. by finish_cell.
Qed.

Lemma finish_filled p c :
  c ∈ ["address"; "city"; "state"; "zip_code"; "status"] → c ∈ have →
  finish_row today ts have p !!! c = p !!! c.
Proof.
  intros Hc Hh.
  repeat (apply elem_of_cons in Hc as [-> | Hc]); [.. | by apply elem_of_nil in Hc];
    (rewrite finish_row_lookup, decide_True by (done || listed)); by finish_cell.
Qed.

Lemma finish_untouched p c :
  c ∈ ["job_title"; "department"; "manager_id"] →
  finish_row today ts have p !!! c = if decide (c ∈ have) then p !!! c else Missing.
Proof.
  intros Hc.
  repeat (apply elem_of_cons in Hc as [-> | Hc]); [.. | by apply elem_of_nil in Hc];
    (rewrite finish_row_lookup by listed); case_decide; try done; by finish_cell.
Qed.

Lemma parsed_filled hs bs (rec : gmap string string) :
  let p := parsed_row parse_date parse_number hs bs rec in
  p !!! "address" = Str (default "" (rec !! "address")) ∧
  p !!! "city" = Str (default "" (rec !! "city")) ∧
  p !!! "state" = Str (default "" (rec !! "state")) ∧
  p !!! "zip_code" = Str (default "" (rec !! "zip_code")) ∧
  p !!! "status" = Str (default "Active" (rec !! "status")).
Proof.
  cbv zeta. repeat split; parsed_cell;
    match goal with |- context [rec !! ?c] => by destruct (rec !! c) end.
Qed.

Lemma parsed_untouched hs bs (rec : gmap string string) c :
  c ∈ ["job_title"; "department"; "manager_id"] →
  parsed_row parse_date parse_number hs bs rec !!! c = of_text (rec !! c).
Proof.
  intros Hc.
  repeat (apply elem_of_cons in Hc as [-> | Hc]); [.. | by apply elem_of_nil in Hc];
    parsed_cell;
    match goal with |- context [rec !! ?c] => by destruct (rec !! c) end.
Qed.

End OtherCells.

Section OtherColumns.

Variable parse_date : list cell → string → option date.
Variable parse_number : string → option float64.
Variable today : date.
Variable ts : string.

Abbreviation run := (stage_a parse_date parse_number today ts).

(** X6. In every row written, address, city, state and zip_code are the
    raw strings, the empty string standing for one that is absent, and
    status is the raw string, "Active" standing for one that is absent;
    none of the five is ever missing. *)
Theorem blanks_filled (t : table) (out : frame) :
  run t = Some out →
  ∃ recs,
    sublist recs (body t) ∧
    Forall2 (λ (rec : gmap string string) (r : row),
               r !!! "address" = Str (default "" (rec !! "address")) ∧
               r !!! "city" = Str (default "" (rec !! "city")) ∧
               r !!! "state" = Str (default "" (rec !! "state")) ∧
               r !!! "zip_code" = Str (default "" (rec !! "zip_code")) ∧
               r !!! "status" = Str (default "Active" (rec !! "status")))
            recs (rows out).
Proof.
  intros (_ & Hhave & hs & bs & recs & Hsub & _ & Hrows)%stage_a_written.
  exists recs. split; [done |]. rewrite Hrows.
  apply Forall2_fmap_r, Forall_Forall2_diag, Forall_forall.
  intros rec _. unfold record_row, compose. cbv beta.
  rewrite !finish_filled by at_end Hhave.
  apply parsed_filled.
Qed.

(** X7. job_title, department and manager_id are not read by the
    script: when the header has the column a row written has the raw
    field (missing if the record has none); when the header lacks it
    the re-indexing makes it a column of missing cells rather than
    failing. *)
Theorem untouched_columns (t : table) (out : frame) :
  run t = Some out →
  ∃ recs,
    sublist recs (body t) ∧
    Forall2 (λ (rec : gmap string string) (r : row),
               ∀ c, c ∈ ["job_title"; "department"; "manager_id"] →
                 r !!! c = if decide (c ∈ header t) then of_text (rec !! c) else Missing)
            recs (rows out).
Proof.
  intros (_ & Hhave & hs & bs & recs & Hsub & _ & Hrows)%stage_a_written.
  exists recs. split; [done |]. rewrite Hrows.
  apply Forall2_fmap_r, Forall_Forall2_diag, Forall_forall.
  intros rec _ c Hc. unfold record_row.
  rewrite finish_untouched, parsed_untouched by done.
  assert (c ∉ derived) as Hnd.
  { repeat (apply elem_of_cons in Hc as [-> | Hc]); [.. | by apply elem_of_nil in Hc];
      apply (bool_decide_unpack _); vm_compute; exact I. }
  pose proof (not_derived_at_end (header t) c Hnd).
  destruct (decide (c ∈ columns_at_end (header t))), (decide (c ∈ header t)); tauto.
Qed.

(** X8. Every row written carries the one time stamp of the run, as
    created_at and as updated_at. *)
Theorem one_time_stamp (t : table) (out : frame) :
  run t = Some out →
  ∀ r, r ∈ rows out → r !!! "created_at" = Str ts ∧ r !!! "updated_at" = Str ts.
Proof.
  intros (_ & Hhave & hs & bs & recs & _ & _ & Hrows)%stage_a_written.
  rewrite Hrows. intros r (rec & -> & _)%list_elem_of_fmap. unfold record_row.
  apply finish_time_stamps; at_end Hhave.
Qed.

(** X9. The salary of a row written is what the number parser makes of
    the raw string with every dollar sign and comma removed, the other
    characters kept in their order; for a record with no salary the
    parser is given the string "nan". *)
Theorem salary_cleaned (t : table) (out : frame) :
  run t = Some out →
  (∃ recs,
     sublist recs (body t) ∧
     Forall2 (λ (rec : gmap string string) (r : row),
                r !!! "salary"
                = of_float (parse_number
                              (PyStr.remove_currency (default "nan" (rec !! "salary")))))
             recs (rows out)) ∧
  ∀ s, list_ascii_of_string (PyStr.remove_currency s)
       = filter (λ c, c ≠ "$"%char ∧ c ≠ ","%char) (list_ascii_of_string s).
Proof.
  intros (_ & Hhave & hs & bs & recs & Hsub & _ & Hrows)%stage_a_written. split.
  - exists recs. split; [done |]. rewrite Hrows.
    apply Forall2_fmap_r, Forall_Forall2_diag, Forall_forall.
    intros rec _. unfold record_row, compose. cbv beta.
    rewrite finish_salary, parsed_salary by done.
    by destruct (rec !! "salary").
  - induction s as [|c s IH]; [done |].
    change (list_ascii_of_string (String c s)) with (c :: list_ascii_of_string s).
    rewrite filter_cons, <- IH. simpl PyStr.remove_currency.
    destruct (decide (c ≠ "$"%char ∧ c ≠ ","%char)) as [[H1 H2] | Hn].
    + apply Ascii.eqb_neq in H1, H2. by rewrite H1, H2.
    + destruct (Ascii.eqb_spec c "$"), (Ascii.eqb_spec c ","); simpl; try done.
      exfalso. by apply Hn.
Qed.

End OtherColumns.

(** ** Text *)

Module PyStrFacts.

Import PyStr.

(** A fact about every character, checked on each of them. *)
Ltac by_char c := destruct c as [[] [] [] [] [] [] [] []]; vm_compute; reflexivity.

Lemma to_lower_idem c : to_lower (to_lower c) = to_lower c.
Proof. by_char c. Qed.

Lemma to_upper_idem c : to_upper (to_upper c) = to_upper c.
Proof. by_char c. Qed.

Lemma is_space_to_lower c : is_space (to_lower c) = is_space c.
Proof. by_char c. Qed.

Lemma is_cased_to_lower c : is_cased (to_lower c) = is_cased c.
Proof. by_char c. Qed.

Lemma is_cased_to_upper c : is_cased (to_upper c) = is_cased c.
Proof. by_char c. Qed.

Lemma lower_idem s : lower (lower s) = lower s.
Proof. induction s as [|c s IH]; simpl; [done |]. by rewrite to_lower_idem, IH. Qed.

Lemma title_from_idem b s : title_from b (title_from b s) = title_from b s.
Proof.
  revert b. induction s as [|c s IH]; intros b; simpl; [done |].
  destruct b.
  - by rewrite to_lower_idem, is_cased_to_lower, IH.
  - by rewrite to_upper_idem, is_cased_to_upper, IH.
Qed.

Lemma title_idem s : title (title s) = title s.
Proof. apply title_from_idem. Qed.

Lemma lstrip_lower s : lstrip (lower s) = lower (lstrip s).
Proof.
  induction s as [|c s IH]; simpl; [done |].
  rewrite is_space_to_lower. by destruct (is_space c).
Qed.

Lemma rstrip_lower s : rstrip (lower s) = lower (rstrip s).
Proof.
  induction s as [|c s IH]; simpl; [done |].
  rewrite IH, is_space_to_lower.
  destruct (rstrip s); simpl; [by destruct (is_space c) | done].
Qed.

Lemma strip_lower s : strip (lower s) = lower (strip s).
Proof. unfold strip. by rewrite lstrip_lower, rstrip_lower. Qed.

Lemma lstrip_head s :
  lstrip s = "" ∨ ∃ c r, lstrip s = String c r ∧ is_space c = false.
Proof.
  induction s as [|c s IH]; simpl; [by left |].
  destruct (is_space c) eqn:Hc; [done |]. right. by exists c, s.
Qed.

Lemma rstrip_head c r :
  is_space c = false → ∃ r', rstrip (String c r) = String c r'.
Proof.
  intros Hc. simpl. destruct (rstrip r); [| by eexists].
  rewrite Hc. by eexists.
Qed.

Lemma rstrip_idem s : rstrip (rstrip s) = rstrip s.
Proof.
  induction s as [|c s IH]; simpl; [done |].
  destruct (rstrip s) as [|c' u] eqn:Hu.
  - destruct (is_space c) eqn:Hc; simpl; [done | by rewrite Hc].
  - simpl. simpl in IH. destruct (rstrip u) as [|c'' u'] eqn:Hu'.
    + destruct (is_space c'); [done |]. by rewrite IH.
    + by rewrite IH.
Qed.

Lemma strip_idem s : strip (strip s) = strip s.
Proof.
  unfold strip. destruct (lstrip_head s) as [-> | (c & r & -> & Hc)]; [done |].
  destruct (rstrip_head c r Hc) as (r' & Hr). rewrite Hr. simpl lstrip.
  rewrite Hc, <- Hr. apply rstrip_idem.
Qed.

(** ASCII text stays ASCII text. *)
Lemma to_lower_ascii c : is_ascii_char (to_lower c) = is_ascii_char c.
Proof. by_char c. Qed.

Lemma to_upper_ascii c : is_ascii_char (to_upper c) = is_ascii_char c.
Proof. by_char c. Qed.

Lemma lower_ascii s : is_ascii (lower s) = is_ascii s.
Proof. induction s as [|c s IH]; simpl; [done |]. by rewrite to_lower_ascii, IH. Qed.

Lemma title_from_ascii b s : is_ascii (title_from b s) = is_ascii s.
Proof.
  revert b. induction s as [|c s IH]; intros b; simpl; [done |].
  rewrite IH. destruct b; by rewrite ?to_lower_ascii, ?to_upper_ascii.
Qed.

Lemma title_ascii s : is_ascii (title s) = is_ascii s.
Proof. apply title_from_ascii. Qed.

Lemma lstrip_ascii s : is_ascii s = true → is_ascii (lstrip s) = true.
Proof.
  induction s as [|c s IH]; simpl; [done |].
  intros [Hc Hs]%andb_true_iff. destruct (is_space c); [by apply IH |].
  simpl. by rewrite Hc, Hs.
Qed.

Lemma rstrip_ascii s : is_ascii s = true → is_ascii (rstrip s) = true.
Proof.
  induction s as [|c s IH]; simpl; [done |].
  intros [Hc Hs]%andb_true_iff. specialize (IH Hs).
  destruct (rstrip s) as [|c' r].
  - destruct (is_space c); simpl; [done |]. by rewrite Hc.
  - change (is_ascii_char c && is_ascii (String c' r) = true). by rewrite Hc, IH.
Qed.

Lemma strip_ascii s : is_ascii s = true → is_ascii (strip s) = true.
Proof. intros Hs. unfold strip. by apply rstrip_ascii, lstrip_ascii. Qed.

(** An address once normalised is left as it is by the normalisation. *)
Lemma normalised_email s :
  let e := lower (strip s) in lower e = e ∧ strip e = e.
Proof.
  cbv zeta. split; [apply lower_idem |].
  by rewrite strip_lower, strip_idem.
Qed.

Lemma append_cons c s t : String c s +:+ t = String c (s +:+ t).
Proof. reflexivity. Qed.

Lemma span_line_all s :
  newline ∉ list_ascii_of_string s → span_line s = (s, "").
Proof.
  induction s as [|c s IH]; simpl; [done |].
  intros [Hc Hs]%not_elem_of_cons.
  destruct (Ascii.eqb_spec c newline); [congruence |]. by rewrite IH.
Qed.

Lemma match_rest_all s :
  s ≠ "" → newline ∉ list_ascii_of_string s → match_rest s = Some s.
Proof.
  intros Hne Hs. unfold match_rest. rewrite span_line_all by done.
  by destruct s.
Qed.

Lemma search_domain_none s :
  "@"%char ∉ list_ascii_of_string s → search_domain s = None.
Proof.
  induction s as [|c s IH]; simpl; [done |].
  intros [Hc Hs]%not_elem_of_cons.
  destruct (Ascii.eqb_spec c "@"); [congruence |]. by apply IH.
Qed.

Lemma search_domain_first pre d :
  "@"%char ∉ list_ascii_of_string pre →
  d ≠ "" → newline ∉ list_ascii_of_string d →
  search_domain (pre +:+ String "@" d) = Some d.
Proof.
  intros Hpre Hd Hnl. induction pre as [|c pre IH].
  - change ("" +:+ String "@" d) with (String "@" d). simpl.
    by rewrite match_rest_all.
  - rewrite append_cons. simpl. simpl in Hpre.
    apply not_elem_of_cons in Hpre as [Hc Hpre].
    destruct (Ascii.eqb_spec c "@"); [congruence |]. by apply IH.
Qed.

Lemma search_domain_last pre :
  "@"%char ∉ list_ascii_of_string pre → search_domain (pre +:+ "@") = None.
Proof.
  intros Hpre. induction pre as [|c pre IH]; [done |].
  rewrite append_cons. simpl. simpl in Hpre.
  apply not_elem_of_cons in Hpre as [Hc Hpre].
  destruct (Ascii.eqb_spec c "@"); [congruence |]. by apply IH.
Qed.

End PyStrFacts.

Section Text.

Variable parse_date : list cell → string → option date.
Variable parse_number : string → option float64.
Variable today : date.
Variable ts : string.

Abbreviation run := (stage_a parse_date parse_number today ts).

(** X10. The e-mail address of a row written is the raw one, "nan" for
    one that is absent, stripped and lower-cased.  This is proved of
    addresses written in ASCII: the address written is then ASCII too,
    and stripping or lower-casing it again changes nothing, so it has no
    upper-case letter and no white space at either end. *)
Theorem email_normalised (t : table) (out : frame) :
  run t = Some out →
  ∃ recs,
    sublist recs (body t) ∧
    Forall2 (λ (rec : gmap string string) (r : row),
               let raw := default "nan" (rec !! "email") in
               PyStr.is_ascii raw = true →
               let e := PyStr.lower (PyStr.strip raw) in
               r !!! "email" = Str e ∧ PyStr.is_ascii e = true ∧
               PyStr.lower e = e ∧ PyStr.strip e = e)
            recs (rows out).
Proof.
  intros (_ & Hhave & hs & bs & recs & Hsub & _ & Hrows)%stage_a_written.
  exists recs. split; [done |]. rewrite Hrows.
  apply Forall2_fmap_r, Forall_Forall2_diag, Forall_forall.
  intros rec _. unfold record_row, compose. cbv beta zeta. intros Hascii.
  rewrite finish_email, parsed_email by done.
  split; [by destruct (rec !! "email") |].
  split; [| apply PyStrFacts.normalised_email].
  rewrite PyStrFacts.lower_ascii. by apply PyStrFacts.strip_ascii.
Qed.

(** X11. The domain of a row written is what the pattern finds in its
    address, the empty string when it finds nothing.  In an address
    whose first "@" is followed by at least one character and no line
    feed, that is all that follows the first "@" (later "@" included);
    in an address without "@", or whose only "@" is its last character,
    nothing is found. *)
Theorem email_domain_after_first_at (t : table) (out : frame) :
  run t = Some out →
  (∀ r, r ∈ rows out →
     ∃ e, r !!! "email" = Str e ∧
          r !!! "email_domain" = Str (default "" (PyStr.search_domain e))) ∧
  (∀ pre d, "@"%char ∉ list_ascii_of_string pre →
            d ≠ "" → PyStr.newline ∉ list_ascii_of_string d →
            PyStr.search_domain (pre +:+ String "@" d) = Some d) ∧
  (∀ e, "@"%char ∉ list_ascii_of_string e → PyStr.search_domain e = None) ∧
  (∀ pre, "@"%char ∉ list_ascii_of_string pre →
          PyStr.search_domain (pre +:+ "@") = None).
Proof.
  intros (_ & Hhave & hs & bs & recs & Hsub & _ & Hrows)%stage_a_written.
  split; [| split; [apply PyStrFacts.search_domain_first |
                    split; [apply PyStrFacts.search_domain_none |
                            apply PyStrFacts.search_domain_last]]].
  rewrite Hrows. intros r (rec & -> & _)%list_elem_of_fmap. unfold record_row.
  rewrite finish_email, finish_email_domain, parsed_email_domain, parsed_email by done.
  destruct (rec !! "email") as [s|]; simpl; eexists; (split; [reflexivity |]);
    first [reflexivity | by destruct (PyStr.search_domain _)].
Qed.

(** X12. The first and the last name of a row written are the raw
    ones in title case, and a name that is absent stays missing.  This
    is proved of names written in ASCII: the name written is then ASCII
    too, and title-casing it again changes nothing. *)
Theorem names_title_cased (t : table) (out : frame) :
  run t = Some out →
  ∃ recs,
    sublist recs (body t) ∧
    Forall2 (λ (rec : gmap string string) (r : row),
               ∀ c, c = "first_name" ∨ c = "last_name" →
                 match rec !! c with
                 | None => r !!! c = Missing
                 | Some s =>
                     PyStr.is_ascii s = true →
                     r !!! c = Str (PyStr.title s) ∧
                     PyStr.is_ascii (PyStr.title s) = true ∧
                     PyStr.title (PyStr.title s) = PyStr.title s
                 end)
            recs (rows out).
Proof.
  intros (_ & Hhave & hs & bs & recs & Hsub & _ & Hrows)%stage_a_written.
  exists recs. split; [done |]. rewrite Hrows.
  apply Forall2_fmap_r, Forall_Forall2_diag, Forall_forall.
  intros rec _ c Hc. unfold record_row.
  assert (finish_row today ts (columns_at_end (header t))
            (parsed_row parse_date parse_number hs bs rec) !!! c
          = str_method PyStr.title (of_text (rec !! c))) as ->.
  { destruct Hc as [-> | ->].
    - rewrite finish_first_name, parsed_first_name by done.
      by destruct (rec !! "first_name").
    - rewrite finish_last_name, parsed_last_name by done.
      by destruct (rec !! "last_name"). }
  destruct (rec !! c) as [s|]; simpl; [| done].
  intros Hascii. split; [done |].
  split; [by rewrite PyStrFacts.title_ascii | apply PyStrFacts.title_idem].
Qed.

End Text.

(** ** The derived fields *)

Lemma Qltb_lt a b : Qltb a b = true ↔ (a < b)%Q.
Proof.
  unfold Qltb. rewrite negb_true_iff, <- not_true_iff_false, Qle_bool_iff.
  split; [apply Qnot_le_lt | apply Qlt_not_le].
Qed.

Lemma Qltb_ge a b : Qltb a b = false ↔ (b <= a)%Q.
Proof. unfold Qltb. by rewrite negb_false_iff, Qle_bool_iff. Qed.

(** X13. The salary band grows with the salary: a salary that is not
    less than another (infinities included) has a band that is not
    lower, in the order Junior, Mid, Senior. *)
Theorem salary_band_monotone (a b : float64) :
  flt b a = false →
  (band_rank (salary_band (Some a)) ≤ band_rank (salary_band (Some b)))%nat.
Proof.
  intros Hab. unfold salary_band.
  destruct a as [| p |], b as [| q |]; simpl in *; try done;
    repeat match goal with
      | |- context [Qltb ?x ?y] =>
          let H := fresh "H" in destruct (Qltb x y) eqn:H; simpl
      end; try (vm_compute; lia);
    rewrite ?Qltb_lt, ?Qltb_ge in *; exfalso; lra.
Qed.

(** X14. [calc_age] gives a negative age exactly for a birth date after
    the run date, and the script does not reject such a date: the age is
    not negative if and only if the birth date is not after the run
    date. *)
Theorem age_sign (today : date) (birth : date) :
  ∃ age, calc_age today (Some birth) = Some age ∧
         (0 <= age ↔ date_le birth today = true).
Proof.
  unfold calc_age, pair_lt, date_le. simpl. eexists. split; [reflexivity |].
  destruct (Z.ltb_spec (year birth) (year today)),
           (Z.eqb_spec (year birth) (year today)),
           (Z.ltb_spec (month today) (month birth)),
           (Z.eqb_spec (month today) (month birth)),
           (Z.ltb_spec (day today) (day birth)),
           (Z.ltb_spec (month birth) (month today)),
           (Z.eqb_spec (month birth) (month today)),
           (Z.leb_spec (day birth) (day today)); simpl; split; intros; try done; lia.
Qed.

(** The tenure of a hire date that is not after the run date is not
    negative. *)
Lemma tenure_of_day_nonneg (today d : date) :
  0 <= toordinal today - toordinal d <= 106751 →
  ∃ k : Z, round1 (tenure_quotient today (Day d)) = Num (Fin (inject_Z k / 10)) ∧
           0 <= k <= 2923.
Proof.
  intros Hle.
  unfold tenure_quotient, timedelta_div, round1. simpl.
  eexists. split; [reflexivity |].
  set (x := (toordinal today - 719163) * ns_per_day - (toordinal d - 719163) * ns_per_day).
  set (q := (inject_Z x / inject_Z timedelta_year * 10)%Q).
  pose proof (rint_bound q) as Hb.
  assert (Qnum q = x * 1 * 10) as Hn by reflexivity.
  assert (Zpos (Qden q) = 31557600000000000) as Hd by reflexivity.
  rewrite Hn, Hd in Hb. clear Hn Hd.
  generalize dependent (rint q). intros k Hb.
  subst x. unfold ns_per_day in Hb. lia.
Qed.

Section Tenure.

Variable parse_date : list cell → string → option date.
Variable parse_number : string → option float64.
Variable today : date.
Variable ts : string.

(** X15. Rows hired after the run date are dropped before the tenure is
    computed, and a tenure of more than 106751 days does not fit the
    time difference of line 56, on which the script stops: so in a row
    Stage A writes, the hire date lies from 0 to 106751 days before the
    run date, and the tenure is a whole number of tenths from 0.0 to
    292.3 (run date and hire date being dates of the calendar). *)
Theorem tenure_not_negative (t : table) (out : frame) :
  stage_a parse_date parse_number today ts t = Some out →
  valid_date today →
  ∀ r d, r ∈ rows out → r !!! "hire_date" = Day d → valid_date d →
    0 <= toordinal today - toordinal d <= 106751 ∧
    ∃ k : Z, r !!! "tenure_years" = Num (Fin (inject_Z k / 10)) ∧ 0 <= k <= 2923.
Proof.
  intros Hrun Htoday r d Hr Hd Hvalid.
  destruct (stage_a_tenure_fits _ _ _ _ _ _ Hrun r Hr) as (c & Hc & ->).
  rewrite Hd in Hc.
  assert (is_Some (tenure_ratio today (Day d))) as Hsome by (by exists c).
  apply tenure_ratio_is_Some in Hsome as [_ Hsome].
  destruct (Hsome d eq_refl) as [_ Habs].
  apply tenure_ratio_quotient in Hc as ->.
  assert (toordinal d <= toordinal today) as Hle.
  { apply date_le_toordinal; [done .. |].
    apply stage_a_written in Hrun as (_ & Hhave & hs & bs & recs & _ & Hok & Hrows).
    rewrite Hrows in Hr. apply list_elem_of_fmap in Hr as (rec & -> & Hrec).
    unfold record_row in Hd. rewrite finish_hire_date in Hd by done.
    apply (proj1 (Forall_forall _ _) Hok), hire_ok_iff in Hrec.
    rewrite Hd in Hrec. by destruct Hrec as [? | (d' & [= <-] & ?)]. }
  split; [lia |]. apply tenure_of_day_nonneg. lia.
Qed.

End Tenure.

(** ** The frame operations *)

Lemma filter_all {A} (P : A → Prop) `{!∀ x, Decision (P x)} (l : list A) :
  Forall P l → filter P l = l.
Proof.
  induction 1 as [|x l Hx _ IH]; [done |].
  by rewrite filter_cons, decide_True, IH.
Qed.

Lemma filter_idem {A} (P : A → Prop) `{!∀ x, Decision (P x)} (l : list A) :
  filter P (filter P l) = filter P l.
Proof.
  apply filter_all, Forall_forall. by intros x [? _]%list_elem_of_filter.
Qed.

(** X16. The deduplicator stops on a KeyError exactly when the key
    column is absent; it returns the frame unchanged when the keys are
    pairwise different, and when the frame has no row. *)
Theorem drop_duplicates_edge_cases (c : string) (df : frame) :
  (drop_duplicates c df = None ↔ c ∉ columns df) ∧
  (c ∈ columns df → NoDup (key_of c <$> rows df) → drop_duplicates c df = Some df) ∧
  (c ∈ columns df → rows df = [] → drop_duplicates c df = Some df).
Proof.
  split; [| split].
  - rewrite eq_None_not_Some. split.
    + intros Hn Hc. apply Hn. eexists. by apply drop_duplicates_Some.
    + intros Hn [out [Hc _]%drop_duplicates_Some]. done.
  - intros Hc Hnd. apply drop_duplicates_Some. split; [done |].
    rewrite dedup_from_id; [by destruct df | done |].
    intros r _. apply not_elem_of_nil.
  - intros Hc Hnil. apply drop_duplicates_Some. split; [done |].
    destruct df as [cs rs]. simpl in *. by subst rs.
Qed.

(** X17. The filter on hire dates stops exactly when the frame has no
    hire_date column (a KeyError) or the column is a datetime64 column
    (a TypeError), which in Stage A is the case when the frame has rows
    and every parsed hire date is missing.  It is idempotent; and on an
    object column it returns the frame unchanged when no hire date is
    after the run date. *)
Theorem remove_future_hires_edge_cases (today : date) (dt : dtype) (df : frame) :
  (remove_future_hires today dt df = None
   ↔ "hire_date" ∉ columns df ∨ dt = Datetime64) ∧
  remove_future_hires today dt df ≫= remove_future_hires today dt
  = remove_future_hires today dt df ∧
  ("hire_date" ∈ columns df →
   (∀ r, r ∈ rows df → not_future today (r !!! "hire_date")) →
   remove_future_hires today Object df = Some df) ∧
  (rows df ≠ [] → (∀ r, r ∈ rows df → r !!! "hire_date" = Missing) →
   remove_future_hires today (dt_date_dtype (key_of "hire_date" <$> rows df)) df = None).
Proof.
  assert (remove_future_hires today dt df = None
          ↔ "hire_date" ∉ columns df ∨ dt = Datetime64) as Hnone.
  { rewrite eq_None_not_Some. split.
    - intros Hn. destruct (decide ("hire_date" ∈ columns df)) as [Hc | Hc]; [| by left].
      right. destruct dt; [| done]. exfalso. apply Hn. eexists.
      by apply remove_future_hires_Some.
    - intros [Hn | ->] [out [[Hc Hdt] _]%remove_future_hires_Some]; done. }
  split; [exact Hnone | split; [| split]].
  - destruct (remove_future_hires today dt df) as [out|] eqn:Hrun; [| done]. simpl.
    apply remove_future_hires_Some in Hrun as [[Hc ->] ->].
    apply remove_future_hires_Some. simpl. split; [done |].
    by rewrite filter_idem.
  - intros Hc Hall. apply remove_future_hires_Some. split; [done |].
    rewrite filter_all; [by destruct df |].
    apply Forall_forall. intros r Hr. by apply hire_ok_iff, Hall.
  - intros Hrows Hall.
    assert (dt_date_dtype (key_of "hire_date" <$> rows df) = Datetime64) as ->.
    { destruct (dt_date_dtype _) eqn:Hdt; [| done].
      apply dt_date_dtype_Object in Hdt
        as [Hnil%fmap_nil_inv | (c & (r & -> & Hr)%list_elem_of_fmap & Hc)]; [done |].
      exfalso. by apply Hc, Hall. }
    unfold remove_future_hires.
    by destruct (getitem "hire_date" df).
Qed.

(** ** Stage B *)

Lemma project_project have cs (r : row) :
  project cs cs (project have cs r) = project have cs r.
Proof.
  apply map_eq. intros c. rewrite !project_lookup.
  destruct (decide (c ∈ cs)) as [Hc | Hc]; [| done].
  rewrite (lookup_total_alt (project have cs r)), project_lookup.
  by rewrite decide_True by done.
Qed.

(** X18. Stage B returns a frame exactly when the frame it reads has
    the eight sample columns; with one of them absent it stops on a
    KeyError. *)
Theorem stage_b_needs_columns (df : frame) :
  (is_Some (stage_b df) ↔ ∀ c, c ∈ cols → c ∈ columns df) ∧
  (stage_b df = None ↔ ∃ c, c ∈ cols ∧ c ∉ columns df).
Proof.
  assert (is_Some (stage_b df) ↔ Forall (λ c, c ∈ columns df) cols) as Hsome.
  { unfold stage_b. rewrite fmap_is_Some. split.
    - intros [out Hout]. by apply getitem_list_Some in Hout as [? _].
    - intros Hreq. eexists. apply getitem_list_Some. by split. }
  split.
  - rewrite Hsome. apply Forall_forall.
  - rewrite eq_None_not_Some, Hsome. rewrite <- Exists_exists.
    split; [apply not_Forall_Exists; apply _ |].
    intros Hex Hall. apply Exists_exists in Hex as (c & Hc & Hn).
    apply Hn. by apply (proj1 (Forall_forall _ _) Hall).
Qed.

(** X19. Stage B is idempotent: run on a sample it has produced, it
    returns that sample. *)
Theorem stage_b_idempotent (df out : frame) :
  stage_b df = Some out → stage_b out = Some out.
Proof.
  unfold stage_b. intros (pdf & [Hcols ->]%getitem_list_Some & ->)%fmap_Some.
  apply fmap_Some. eexists. split.
  - apply getitem_list_Some. split; [| reflexivity].
    apply Forall_forall. by intros c Hc.
  - unfold head. simpl. f_equal.
    rewrite <- !fmap_take, take_idemp, <- list_fmap_compose.
    apply list_fmap_ext. intros i r _. unfold compose. symmetry.
    apply project_project.
Qed.

(** ** The sample runs, again *)

(** Both records of E7 are gone, the first one being hired after the run
    date; the other record, born the day after the run date and hired on
    the run date, has age -1 and tenure 0.0. *)
Example repeat_rows :
  (λ r : row, (r !!! "employee_id", r !!! "full_name", r !!! "email",
               r !!! "email_domain", r !!! "age", r !!! "tenure_years",
               r !!! "job_title")) <$> rows Repeat.written
  = [(Str "E8", Str "Bo ", Str "bo@x.io", Str "x.io", Int (-1), Num (Fin 0.0),
      Missing)].
Proof. vm_compute. reflexivity. Qed.

Abbreviation repeat_run :=
  (stage_a Sample.iso_date Sample.plain_number Sample.run_date Sample.run_ts
     Repeat.roster).

(** C1 as worded fails for a record the deduplicator drops: the second
    record of E7 was hired before the run date, and no row written has
    its employee_id. *)
Lemma dropped_duplicate_counterexample :
  Repeat.again ∈ body Repeat.roster ∧
  of_text (Repeat.again !! "employee_id") = Str "E7" ∧
  (s ← Repeat.again !! "hire_date"; Sample.iso_date [] s) = Some (mkdate 2019 5 1) ∧
  date_le (mkdate 2019 5 1) Sample.run_date = true ∧
  ∃ out,
    repeat_run = Some out ∧
    key_of "employee_id" <$> rows out = [Str "E8"] ∧
    ¬ (∀ rec : gmap string string, rec ∈ body Repeat.roster →
         (∃ r, r ∈ rows out ∧ r !!! "employee_id" = of_text (rec !! "employee_id"))
         ↔ not_future Sample.run_date
             (of_date (s ← rec !! "hire_date"; Sample.iso_date [] s))).
Proof.
  assert (Repeat.again ∈ body Repeat.roster) as Hin.
  { change (Repeat.again ∈ [Repeat.early; Repeat.again; Repeat.other]).
    apply list_elem_of_further, list_elem_of_here. }
  assert (of_text (Repeat.again !! "employee_id") = Str "E7") as Hid
    by (vm_compute; reflexivity).
  assert ((s ← Repeat.again !! "hire_date"; Sample.iso_date [] s)
          = Some (mkdate 2019 5 1)) as Hhire by (vm_compute; reflexivity).
  assert (date_le (mkdate 2019 5 1) Sample.run_date = true) as Hle
    by (vm_compute; reflexivity).
  assert (∀ out : frame,
            key_of "employee_id" <$> rows out = [Str "E8"] →
            ¬ (∀ rec : gmap string string, rec ∈ body Repeat.roster →
                 (∃ r, r ∈ rows out ∧ r !!! "employee_id" = of_text (rec !! "employee_id"))
                 ↔ not_future Sample.run_date
                     (of_date (s ← rec !! "hire_date"; Sample.iso_date [] s)))) as Hno.
  { intros out Hids H. destruct (H Repeat.again Hin) as [_ Hback].
    destruct Hback as (r & Hr & Hr_id).
    { rewrite Hhire. right. exists (mkdate 2019 5 1). split; [reflexivity | exact Hle]. }
    assert (r !!! "employee_id" ∈ key_of "employee_id" <$> rows out) as Hmem.
    { apply list_elem_of_fmap. exists r. split; [reflexivity | exact Hr]. }
    rewrite Hids, Hr_id, Hid in Hmem. apply list_elem_of_singleton in Hmem.
    discriminate. }
  split; [exact Hin |]. split; [exact Hid |]. split; [exact Hhire |].
  split; [exact Hle |].
  exists Repeat.written.
  split; [vm_compute; reflexivity |].
  assert (key_of "employee_id" <$> rows Repeat.written = [Str "E8"]) as Hids
    by (vm_compute; reflexivity).
  split; [exact Hids | exact (Hno _ Hids)].
Qed.

Lemma future_hires_dropped_witness :
  repeat_run = Some Repeat.written ∧
  ∀ r, r ∈ rows Repeat.written → not_future Sample.run_date (r !!! "hire_date").
Proof.
  assert (repeat_run = Some Repeat.written) as Hrun by (vm_compute; reflexivity).
  split; [exact Hrun |].
  destruct (future_hires_dropped Sample.iso_date Sample.plain_number Sample.run_date
              Sample.run_ts Repeat.roster Repeat.written Hrun) as (_ & H & _).
  exact H.
Defined.


Lemma stage_a_stops_without_hire_dates_witness :
  key_of "hire_date"
    <$> parsed_rows Sample.iso_date Sample.plain_number Stops.no_dates
  = [Missing; Missing] ∧
  stage_a Sample.iso_date Sample.plain_number Sample.run_date Sample.run_ts
    Stops.no_dates = None.
Proof.
  assert (key_of "hire_date"
            <$> parsed_rows Sample.iso_date Sample.plain_number Stops.no_dates
          = [Missing; Missing]) as Hs by (vm_compute; reflexivity).
  split; [exact Hs |].
  apply (stage_a_stops_without_hire_dates Sample.iso_date Sample.plain_number
           Sample.run_date Sample.run_ts Stops.no_dates).
  - rewrite Hs. discriminate.
  - rewrite Hs. repeat constructor.
Defined.

Lemma stage_a_stops_on_overflow_witness :
  key_of "hire_date"
    <$> parsed_rows Sample.iso_date Sample.plain_number Stops.long_ago
  = [Day (mkdate 2024 3 14); Day (mkdate 1700 1 1)] ∧
  toordinal Sample.run_date - toordinal (mkdate 1700 1 1) = 118411 ∧
  stage_a Sample.iso_date Sample.plain_number Sample.run_date Sample.run_ts
    Stops.long_ago = None.
Proof.
  assert (key_of "hire_date"
            <$> parsed_rows Sample.iso_date Sample.plain_number Stops.long_ago
          = [Day (mkdate 2024 3 14); Day (mkdate 1700 1 1)]) as Hs
    by (vm_compute; reflexivity).
  assert (toordinal Sample.run_date - toordinal (mkdate 1700 1 1) = 118411) as Hdays
    by (vm_compute; reflexivity).
  split; [exact Hs |]. split; [exact Hdays |].
  destruct (stage_a_stops_on_overflow Sample.iso_date Sample.plain_number
              Sample.run_date Sample.run_ts Stops.long_ago) as [_ Hfar].
  apply (Hfar (mkdate 1700 1 1)).
  - rewrite Hs. apply list_elem_of_further, list_elem_of_here.
  - vm_compute. reflexivity.
  - right. rewrite Hdays. vm_compute. reflexivity.
Defined.

Lemma written_ids_distinct_witness :
  repeat_run = Some Repeat.written ∧
  NoDup (key_of "employee_id" <$> rows Repeat.written).
Proof.
  assert (repeat_run = Some Repeat.written) as Hrun by (vm_compute; reflexivity).
  split; [exact Hrun |].
  exact (written_ids_distinct Sample.iso_date Sample.plain_number Sample.run_date
           Sample.run_ts Repeat.roster Repeat.written Hrun).
Defined.

Lemma kept_record_written_witness :
  repeat_run = Some Repeat.written ∧
  ∃ kept, sublist kept (body Repeat.roster) ∧
          (length (rows Repeat.written) ≤ length kept)%nat.
Proof.
  assert (repeat_run = Some Repeat.written) as Hrun by (vm_compute; reflexivity).
  split; [exact Hrun |].
  destruct (kept_record_written Sample.iso_date Sample.plain_number Sample.run_date
              Sample.run_ts Repeat.roster Repeat.written Hrun)
    as (kept & Hsub & _ & Hlen & _).
  exists kept. split; [exact Hsub | exact Hlen].
Defined.

Lemma first_record_decides_witness :
  repeat_run = Some Repeat.written ∧
  ∃ kept, sublist kept (body Repeat.roster) ∧
          drop_duplicates "employee_id" (read_csv Repeat.roster)
          = Some (Frame (header Repeat.roster)
                    ((λ rec : gmap string string, (Str <$> rec : row)) <$> kept)).
Proof.
  assert (repeat_run = Some Repeat.written) as Hrun by (vm_compute; reflexivity).
  split; [exact Hrun |].
  destruct (first_record_decides Sample.iso_date Sample.plain_number Sample.run_date
              Sample.run_ts Repeat.roster Repeat.written Hrun)
    as (kept & Hsub & Hdd & _).
  exists kept. split; [exact Hsub | exact Hdd].
Defined.

Lemma dates_parsed_by_series_witness :
  repeat_run = Some Repeat.written ∧
  ∃ kept recs : list (gmap string string),
    sublist recs kept ∧ length recs = length (rows Repeat.written).
Proof.
  assert (repeat_run = Some Repeat.written) as Hrun by (vm_compute; reflexivity).
  split; [exact Hrun |].
  destruct (dates_parsed_by_series Sample.iso_date Sample.plain_number Sample.run_date
              Sample.run_ts Repeat.roster Repeat.written Hrun)
    as (kept & recs & _ & Hsub & H).
  exists kept, recs. split; [exact Hsub | exact (Forall2_length _ _ _ H)].
Defined.

Lemma blanks_filled_witness :
  repeat_run = Some Repeat.written ∧
  ∃ recs, sublist recs (body Repeat.roster) ∧ length recs = length (rows Repeat.written).
Proof.
  assert (repeat_run = Some Repeat.written) as Hrun by (vm_compute; reflexivity).
  split; [exact Hrun |].
  destruct (blanks_filled Sample.iso_date Sample.plain_number Sample.run_date
              Sample.run_ts Repeat.roster Repeat.written Hrun) as (recs & Hsub & H).
  exists recs. split; [exact Hsub | exact (Forall2_length _ _ _ H)].
Defined.

Lemma untouched_columns_witness :
  repeat_run = Some Repeat.written ∧
  ∃ recs, sublist recs (body Repeat.roster) ∧ length recs = length (rows Repeat.written).
Proof.
  assert (repeat_run = Some Repeat.written) as Hrun by (vm_compute; reflexivity).
  split; [exact Hrun |].
  destruct (untouched_columns Sample.iso_date Sample.plain_number Sample.run_date
              Sample.run_ts Repeat.roster Repeat.written Hrun) as (recs & Hsub & H).
  exists recs. split; [exact Hsub | exact (Forall2_length _ _ _ H)].
Defined.

Lemma one_time_stamp_witness :
  repeat_run = Some Repeat.written ∧
  ∀ r, r ∈ rows Repeat.written →
    r !!! "created_at" = Str Sample.run_ts ∧ r !!! "updated_at" = Str Sample.run_ts.
Proof.
  assert (repeat_run = Some Repeat.written) as Hrun by (vm_compute; reflexivity).
  split; [exact Hrun |].
  exact (one_time_stamp Sample.iso_date Sample.plain_number Sample.run_date
           Sample.run_ts Repeat.roster Repeat.written Hrun).
Defined.

Lemma salary_cleaned_witness :
  repeat_run = Some Repeat.written ∧
  ∃ recs, sublist recs (body Repeat.roster) ∧ length recs = length (rows Repeat.written).
Proof.
  assert (repeat_run = Some Repeat.written) as Hrun by (vm_compute; reflexivity).
  split; [exact Hrun |].
  destruct (salary_cleaned Sample.iso_date Sample.plain_number Sample.run_date
              Sample.run_ts Repeat.roster Repeat.written Hrun)
    as ((recs & Hsub & H) & _).
  exists recs. split; [exact Hsub | exact (Forall2_length _ _ _ H)].
Defined.

Lemma email_normalised_witness :
  repeat_run = Some Repeat.written ∧
  ∃ recs, sublist recs (body Repeat.roster) ∧ length recs = length (rows Repeat.written).
Proof.
  assert (repeat_run = Some Repeat.written) as Hrun by (vm_compute; reflexivity).
  split; [exact Hrun |].
  destruct (email_normalised Sample.iso_date Sample.plain_number Sample.run_date
              Sample.run_ts Repeat.roster Repeat.written Hrun) as (recs & Hsub & H).
  exists recs. split; [exact Hsub | exact (Forall2_length _ _ _ H)].
Defined.

Lemma email_domain_after_first_at_witness :
  repeat_run = Some Repeat.written ∧
  PyStr.search_domain ("bo" +:+ String "@" "x@y.io") = Some "x@y.io".
Proof.
  assert (repeat_run = Some Repeat.written) as Hrun by (vm_compute; reflexivity).
  split; [exact Hrun |].
  destruct (email_domain_after_first_at Sample.iso_date Sample.plain_number
              Sample.run_date Sample.run_ts Repeat.roster Repeat.written Hrun)
    as (_ & Hfirst & _).
  apply Hfirst.
  - apply (bool_decide_unpack _). vm_compute. exact I.
  - discriminate.
  - apply (bool_decide_unpack _). vm_compute. exact I.
Defined.

Lemma names_title_cased_witness :
  repeat_run = Some Repeat.written ∧
  ∃ recs, sublist recs (body Repeat.roster) ∧ length recs = length (rows Repeat.written).
Proof.
  assert (repeat_run = Some Repeat.written) as Hrun by (vm_compute; reflexivity).
  split; [exact Hrun |].
  destruct (names_title_cased Sample.iso_date Sample.plain_number Sample.run_date
              Sample.run_ts Repeat.roster Repeat.written Hrun) as (recs & Hsub & H).
  exists recs. split; [exact Hsub | exact (Forall2_length _ _ _ H)].
Defined.

Lemma salary_band_monotone_witness :
  flt (Fin 80000) (Fin 49999.99) = false ∧
  (band_rank (salary_band (Some (Fin 49999.99)))
   ≤ band_rank (salary_band (Some (Fin 80000))))%nat.
Proof.
  split; [reflexivity |].
  apply (salary_band_monotone (Fin 49999.99) (Fin 80000)). reflexivity.
Defined.

Lemma tenure_not_negative_witness :
  repeat_run = Some Repeat.written ∧
  valid_date Sample.run_date ∧
  ∀ r d, r ∈ rows Repeat.written → r !!! "hire_date" = Day d → valid_date d →
    0 <= toordinal Sample.run_date - toordinal d <= 106751 ∧
    ∃ k : Z, r !!! "tenure_years" = Num (Fin (inject_Z k / 10)) ∧ 0 <= k <= 2923.
Proof.
  assert (repeat_run = Some Repeat.written) as Hrun by (vm_compute; reflexivity).
  assert (valid_date Sample.run_date) as Hvalid by (vm_compute; intuition discriminate).
  split; [exact Hrun |]. split; [exact Hvalid |].
  exact (tenure_not_negative Sample.iso_date Sample.plain_number Sample.run_date
           Sample.run_ts Repeat.roster Repeat.written Hrun Hvalid).
Defined.

Lemma drop_duplicates_edge_cases_witness :
  "employee_id" ∈ columns (Frame required []) ∧
  drop_duplicates "employee_id" (Frame required []) = Some (Frame required []).
Proof.
  assert ("employee_id" ∈ columns (Frame required [])) as Hc.
  { apply (bool_decide_unpack _). vm_compute. exact I. }
  split; [exact Hc |].
  destruct (drop_duplicates_edge_cases "employee_id" (Frame required []))
    as (_ & _ & Hempty).
  apply Hempty; [exact Hc | reflexivity].
Defined.

Lemma remove_future_hires_edge_cases_witness :
  let hired : row := {[ "hire_date" := Day (mkdate 2020 1 1) ]} in
  let unknown : row := {[ "hire_date" := Missing ]} in
  remove_future_hires Sample.run_date Object (Frame ["hire_date"] [hired; unknown])
  = Some (Frame ["hire_date"] [hired; unknown]) ∧
  remove_future_hires Sample.run_date
    (dt_date_dtype (key_of "hire_date" <$> [unknown])) (Frame ["hire_date"] [unknown])
  = None.
Proof.
  intros hired unknown.
  assert (hired !!! "hire_date" = Day (mkdate 2020 1 1)) as Hhired
    by apply lookup_total_singleton_eq.
  assert (unknown !!! "hire_date" = Missing) as Hunknown
    by apply lookup_total_singleton_eq.
  destruct (remove_future_hires_edge_cases Sample.run_date Object
              (Frame ["hire_date"] [hired; unknown])) as (_ & _ & Hall & _).
  destruct (remove_future_hires_edge_cases Sample.run_date Object
              (Frame ["hire_date"] [unknown])) as (_ & _ & _ & Hnat).
  split.
  - apply Hall.
    + apply list_elem_of_here.
    + intros r Hr. cbn [rows] in Hr.
      apply elem_of_cons in Hr as [-> | Hr]; [| apply list_elem_of_singleton in Hr as ->].
      * rewrite Hhired. right. exists (mkdate 2020 1 1). split; [reflexivity |].
        vm_compute. reflexivity.
      * rewrite Hunknown. left. reflexivity.
  - apply Hnat.
    + discriminate.
    + intros r Hr. cbn [rows] in Hr. apply list_elem_of_singleton in Hr as ->.
      exact Hunknown.
Defined.

Lemma stage_b_needs_columns_witness :
  is_Some (stage_b Sample.fifteen) ∧ stage_b (Frame required []) = None.
Proof.
  destruct (stage_b_needs_columns Sample.fifteen) as (Hsome & _).
  destruct (stage_b_needs_columns (Frame required [])) as (_ & Hnone).
  split.
  - apply Hsome. intros c Hc. simpl.
    revert c Hc. apply Forall_forall. apply (bool_decide_unpack _). vm_compute. exact I.
  - apply Hnone. exists "full_name". split.
    + apply (bool_decide_unpack _). vm_compute. exact I.
    + apply (bool_decide_unpack _). vm_compute. exact I.
Defined.

Lemma stage_b_idempotent_witness :
  ∃ out, stage_b Sample.fifteen = Some out ∧ stage_b out = Some out.
Proof.
  destruct (stage_b Sample.fifteen) as [out|] eqn:Hrun.
  - exists out. split; [reflexivity |].
    exact (stage_b_idempotent Sample.fifteen out Hrun).
  - exfalso. vm_compute in Hrun. discriminate.
Defined.
